(** * Incrementality test power analysis (app.py)

    A shallow embedding of the Streamlit script [app.py]: the group
    assignor, the window filter, the power calculator, the significance
    tester and the summary formatter, followed by the properties of the
    specification that can be stated over them.

    Numbers are modelled as the script has them: Python and numpy floats
    are IEEE binary64 values (the primitive [float]), Python ints are [Z],
    pandas timestamps are nanosecond counts in [Z].  The routines the
    script imports (numpy's random state, pandas' reductions, scipy's
    t-test, statsmodels' power solver, float rounding and printing) are
    an interface the script is parameterised by. *)

From Stdlib Require Import ZArith List String Bool Lia Permutation.
From Stdlib Require Import Floats DecimalString.
From Stdlib Require Import Sorted.
Import ListNotations.

Open Scope Z_scope.

(** ** Python primitives *)

Module Py.

(** The exceptions that can leave the script uncaught. *)
Inductive exn : Type :=
| ValueError
| OverflowError
| ZeroDivisionError
| RuntimeError
| ParserError.

Definition result (A : Type) : Type := (exn + A)%type.

Definition ret {A} (a : A) : result A := inr a.
Definition raise {A} (e : exn) : result A := inl e.
Definition bind {A B} (m : result A) (k : A -> result B) : result B :=
  match m with
  | inl e => inl e
  | inr a => k a
  end.

(** [float(n)] for a Python int of magnitude below 2^63: exact up to
    2^53, rounded to nearest beyond.  The script converts table lengths
    and slider values only. *)
Definition float_of_int (n : Z) : float :=
  if n <? 0 then PrimFloat.opp (of_uint63 (Uint63.of_Z (- n)))
  else of_uint63 (Uint63.of_Z n).

(** [int(x)]: truncation towards zero; NaN and the infinities raise. *)
Definition int_of_float (x : float) : result Z :=
  match Prim2SF x with
  | S754_nan => raise ValueError
  | S754_infinity _ => raise OverflowError
  | S754_zero _ => ret 0
  | S754_finite s m e => ret (cond_Zopp s (Z.shiftl (Zpos m) e))
  end.

(** [int(np.ceil(x))]: the least integer not below [x]. *)
Definition int_of_ceil (x : float) : result Z :=
  match Prim2SF x with
  | S754_nan => raise ValueError
  | S754_infinity _ => raise OverflowError
  | S754_zero _ => ret 0
  | S754_finite s m e => ret (- Z.shiftl (cond_Zopp (negb s) (Zpos m)) e)
  end.

(** The floor of the number a float denotes: [(-1)^s * m * 2^e] floored,
    [None] for NaN and the infinities.  ([Z.shiftl] by a negative amount
    is the flooring division by a power of two.) *)
Definition floor (x : float) : option Z :=
  match Prim2SF x with
  | S754_zero _ => Some 0
  | S754_finite s m e => Some (Z.shiftl (cond_Zopp s (Zpos m)) e)
  | _ => None
  end.

Definition is_finite (x : float) : bool :=
  match Prim2SF x with
  | S754_zero _ | S754_finite _ _ _ => true
  | _ => false
  end.

Definition is_zero (x : float) : bool :=
  match Prim2SF x with
  | S754_zero _ => true
  | _ => false
  end.


End Py.

Notation "x <- m ;; k" := (Py.bind m (fun x => k))
  (at level 61, m at next level, right associativity).

(** ** Data model *)

(** One parsed line of the revenue file.  [date] is the pandas timestamp
    of the [date] column, in nanoseconds. *)
Record revenue_row : Type := {
  date : Z;
  geo_location : string;
  revenue : float
}.

(** One parsed line of the orders file. *)
Record orders_row : Type := {
  orders_date : Z;
  orders_geo_location : string;
  orders : float
}.

(** An uploaded file, seen through [pd.read_csv(file, parse_dates=["date"])]:
    the call raises (an empty or malformed file, no [date] column) or
    yields the table.  The tables of this model are the well-formed ones
    of the data model: the columns [date], [geo_location] and the metric
    are present, every date has been parsed and the metric is numeric.
    A file that [read_csv] accepts without these (dates left as text, a
    column missing) lies outside the model: the script raises on it
    further down (TypeError at line 42, KeyError at line 31 or 46). *)
Inductive upload (row : Type) : Type :=
| Unreadable (e : Py.exn)
| Csv (rows : list row).
Arguments Unreadable {row} e.
Arguments Csv {row} rows.

Definition read_csv {row} (f : upload row) : Py.result (list row) :=
  match f with
  | Unreadable e => Py.raise e
  | Csv rows => Py.ret rows
  end.

Inductive group : Type := control | test.

Definition group_eqb (a b : group) : bool :=
  match a, b with
  | control, control | test, test => true
  | _, _ => false
  end.

(** A revenue row once the [group] column has been added. *)
Record grouped_row : Type := {
  row : revenue_row;
  grp : group
}.

(** The sidebar form. *)
Record config : Type := {
  weekly_budget : Z;
  budget_increase_pct : Z;
  test_weeks : Z;
  holdout_pct : Z;
  alpha : float;
  power : float
}.

(** What the script puts on the page (static captions left out). *)
Inductive cell : Type :=
| CInt (n : Z)
| CFloat (x : float)
| CStr (s : string).

Inductive warning : Type :=
| ControlTooSmall
| Underpowered.

Inductive widget : Type :=
| SidebarWrite (cities : list string)
| Warning (w : warning)
| Dataframe (table : list (string * cell))
| LineChart (series : list (Z * option float * option float))
| Info (msg : string).

(** ** The imported routines

    numpy's global random state, the pandas reductions, scipy's
    [ttest_ind], statsmodels' [TTestIndPower.solve_power], and the
    rounding and printing of floats.  The script owns none of them; it
    is written against this interface.  The one law recorded is that
    [np.random.permutation n] is a rearrangement of [0 .. n-1]. *)
Class Library : Type := {
  rng : Type;
  np_random_seed : Z -> rng;
  np_random_permutation : rng -> nat -> list nat * rng;
  np_random_permutation_perm :
    forall g n, Permutation (fst (np_random_permutation g n)) (seq 0 n);
  series_mean : list float -> float;
  series_std : list float -> float;
  groupby_mean : list float -> float;
  ttest_ind : list float -> list float -> bool -> float * float;
  solve_power : float -> float -> float -> Py.result float;
  np_round : float -> Z -> float;
  py_round : float -> Z -> float;
  format_float : float -> string
}.

(** ** Pure helpers of the script *)

(** [Series.unique()]: the distinct values in order of first appearance. *)
Fixpoint unique (l : list string) : list string :=
  match l with
  | [] => []
  | x :: t => x :: filter (fun y => negb (String.eqb x y)) (unique t)
  end.

(** [x in control_cities]. *)
Definition city_in (x : string) (control_cities : list string) : bool :=
  existsb (String.eqb x) control_cities.

(** The lambda of line 34. *)
Definition label (control_cities : list string) (x : string) : group :=
  if city_in x control_cities then control else test.

Definition add_group (control_cities : list string) (df : list revenue_row)
  : list grouped_row :=
  map (fun r => {| row := r; grp := label control_cities (geo_location r) |}) df.

(** [len(cities) * (holdout_pct / 100)], a product of binary64 floats,
    and [holdout_count], its conversion by [int]. *)
Definition holdout_product (n : nat) (holdout_pct : Z) : float :=
  (Py.float_of_int (Z.of_nat n)
   * (Py.float_of_int holdout_pct / Py.float_of_int 100))%float.

Definition holdout_count (n : nat) (holdout_pct : Z) : Py.result Z :=
  Py.int_of_float (holdout_product n holdout_pct).

(** The count can be used for a draw among [n] cities. *)
Definition holdout_count_ok (n : nat) (holdout_pct : Z) : bool :=
  match holdout_count n holdout_pct with
  | inr k => (0 <=? k) && (k <=? Z.of_nat n)
  | inl _ => false
  end.

(** [series.max()] of the date column; [None] is NaT (empty table). *)
Definition max_date (df : list grouped_row) : option Z :=
  match df with
  | [] => None
  | r :: t => Some (fold_left Z.max (map (fun r => date (row r)) t) (date (row r)))
  end.

Definition ns_per_day : Z := 86400 * 1000000000.

(** The earliest date and the span of the dates (latest minus earliest),
    in which the specification words the window's edge case. *)
Definition min_date (df : list grouped_row) : option Z :=
  match df with
  | [] => None
  | r :: t => Some (fold_left Z.min (map (fun r => date (row r)) t) (date (row r)))
  end.

Definition date_span (df : list grouped_row) : option Z :=
  match max_date df, min_date df with
  | Some a, Some b => Some (a - b)
  | _, _ => None
  end.

(** [revenue_df["date"].max() - pd.Timedelta(days=days)]. *)
Definition test_start (test_weeks : Z) (df : list grouped_row) : option Z :=
  match max_date df with
  | None => None
  | Some m => Some (m - (test_weeks * 7) * ns_per_day)
  end.

(** [revenue_df[revenue_df["date"] > test_start]]; a comparison with NaT
    is false. *)
Definition window_filter (test_weeks : Z) (df : list grouped_row)
  : list grouped_row :=
  match test_start test_weeks df with
  | None => []
  | Some c => filter (fun r => c <? date (row r)) df
  end.

(** [test_df[test_df["group"] == g]["revenue"]]. *)
Definition group_values (g : group) (df : list grouped_row) : list float :=
  map (fun r => revenue (row r)) (filter (fun r => group_eqb (grp r) g) df).

Definition len {A} (l : list A) : Z := Z.of_nat (List.length l).

(** [groupby(["date", "group"])["revenue"].mean().unstack()]: one line per
    date of the window, in increasing order, with the mean of each group
    that has rows on that date. *)
Fixpoint insert_date (d : Z) (l : list Z) : list Z :=
  match l with
  | [] => [d]
  | x :: t =>
      if d <? x then d :: l
      else if d =? x then l
      else x :: insert_date d t
  end.

Definition sorted_dates (df : list grouped_row) : list Z :=
  fold_right insert_date [] (map (fun r => date (row r)) df).

(** [sorted(control_cities.tolist())]. *)
Fixpoint insert_city (c : string) (l : list string) : list string :=
  match l with
  | [] => [c]
  | x :: t => if String.leb c x then c :: l else x :: insert_city c t
  end.

Definition sorted (l : list string) : list string :=
  fold_right insert_city [] l.

(** ** The script *)

Section Script.

Context {L : Library}.

(** The state a run works on: numpy's global random state and the
    page rendered so far. *)
Record world : Type := {
  rng_state : rng;
  screen : list widget
}.

(** A step of the script: it may raise, and it leaves a world behind
    either way (what was rendered before an exception stays). *)
Definition app (A : Type) : Type := world -> Py.result A * world.

Definition pure {A} (a : A) : app A := fun w => (Py.ret a, w).

Definition seq_app {A B} (m : app A) (k : A -> app B) : app B :=
  fun w =>
    match m w with
    | (inl e, w') => (inl e, w')
    | (inr a, w') => k a w'
    end.

Definition lift {A} (r : Py.result A) : app A := fun w => (r, w).

Definition show (x : widget) : app unit :=
  fun w => (Py.ret tt, {| rng_state := rng_state w; screen := screen w ++ [x] |}).

Definition when (b : bool) (m : app unit) : app unit :=
  if b then m else pure tt.

Local Notation "x <~ m ;; k" := (seq_app m (fun x => k))
  (at level 61, m at next level, right associativity).

(** *** Group assignor (lines 30-34) *)

Definition seed (s : Z) : app unit :=
  fun w => (Py.ret tt, {| rng_state := np_random_seed s; screen := screen w |}).

(** [np.random.choice(a, size=size, replace=False)]: the first [size]
    entries of a permutation of the positions of [a]. *)
Definition np_random_choice (a : list string) (size : Z) : app (list string) :=
  fun w =>
    if len a <? size then (Py.raise Py.ValueError, w)
    else if size <? 0 then (Py.raise Py.ValueError, w)
    else
      let (p, g) := np_random_permutation (rng_state w) (List.length a) in
      (Py.ret (map (fun i => nth i a EmptyString) (firstn (Z.to_nat size) p)),
       {| rng_state := g; screen := screen w |}).

(** The value of [control_cities] after line 33: the cities at the first
    [k] positions of the permutation drawn from the state seeded at
    line 30. *)
Definition control_cities (cs : list string) (k : Z) : list string :=
  map (fun i => nth i cs EmptyString)
      (firstn (Z.to_nat k)
              (fst (np_random_permutation (np_random_seed 42) (List.length cs)))).

Definition cities (revenue_df : list revenue_row) : list string :=
  unique (map geo_location revenue_df).

Record assignment : Type := {
  a_cities : list string;
  a_holdout_count : Z;
  a_control_cities : list string;
  a_revenue_df : list grouped_row
}.

Definition group_assignor (revenue_df : list revenue_row) (holdout_pct : Z)
  : app assignment :=
  _ <~ seed 42 ;;
  let cs := cities revenue_df in
  k <~ lift (holdout_count (List.length cs) holdout_pct) ;;
  ctrl <~ np_random_choice cs k ;;
  pure {| a_cities := cs;
          a_holdout_count := k;
          a_control_cities := ctrl;
          a_revenue_df := add_group ctrl revenue_df |}.

(** The units of each group: the cities the lambda of line 34 labels
    [control], and those it labels [test]. *)
Definition control_units (a : assignment) : list string :=
  filter (fun x => group_eqb (label (a_control_cities a) x) control) (a_cities a).

Definition test_units (a : assignment) : list string :=
  filter (fun x => group_eqb (label (a_control_cities a) x) test) (a_cities a).

(** *** Power calculator (lines 46-52) *)

Record power_result : Type := {
  baseline : float;
  std_dev : float;
  lift_amt : float;
  effect_size : float;
  sample_needed : Z
}.

Definition baseline_of (test_df : list grouped_row) : float :=
  series_mean (map (fun r => revenue (row r)) test_df).

Definition std_dev_of (test_df : list grouped_row) : float :=
  series_std (map (fun r => revenue (row r)) test_df).

Definition lift_amt_of (budget_increase_pct : Z) (test_df : list grouped_row)
  : float :=
  (Py.float_of_int budget_increase_pct / Py.float_of_int 100
   * baseline_of test_df)%float.

Definition effect_size_of (budget_increase_pct : Z) (test_df : list grouped_row)
  : float :=
  (lift_amt_of budget_increase_pct test_df / std_dev_of test_df)%float.

Definition power_calculator (cfg : config) (test_df : list grouped_row)
  : Py.result power_result :=
  let effect_size := effect_size_of (budget_increase_pct cfg) test_df in
  v <- solve_power effect_size (alpha cfg) (power cfg) ;;
  n <- Py.int_of_ceil v ;;
  Py.ret {| baseline := baseline_of test_df;
            std_dev := std_dev_of test_df;
            lift_amt := lift_amt_of (budget_increase_pct cfg) test_df;
            effect_size := effect_size;
            sample_needed := n |}.

(** *** Significance tester (lines 67-72) *)

Record test_result : Type := {
  t_stat : option float;
  p_val : option float;
  obs_lift : option float;
  percent_lift : option float
}.

Definition unavailable : test_result :=
  {| t_stat := None; p_val := None; obs_lift := None; percent_lift := None |}.

Definition significance_tester (test_group control_group : list float)
  : test_result :=
  if (2 <=? len test_group) && (2 <=? len control_group) then
    let (t, p) := ttest_ind test_group control_group false in
    let obs := (series_mean test_group - series_mean control_group)%float in
    let pct := (obs / series_mean control_group * Py.float_of_int 100)%float in
    {| t_stat := Some t; p_val := Some p;
       obs_lift := Some obs; percent_lift := Some pct |}
  else unavailable.

(** *** Summary formatter (lines 75-98) *)

Definition total_budget (cfg : config) : float :=
  (Py.float_of_int (weekly_budget cfg)
   * (Py.float_of_int 1
      + Py.float_of_int (budget_increase_pct cfg) / Py.float_of_int 100)
   * Py.float_of_int (test_weeks cfg))%float.

Definition na : cell := CStr "N/A".

Definition observed_lift_cell (r : test_result) : cell :=
  match obs_lift r with
  | Some x => CFloat (np_round x 2)
  | None => na
  end.

Definition observed_percent_cell (r : test_result) : cell :=
  match percent_lift r with
  | Some x => CStr (format_float (np_round x 2) ++ "%")
  | None => na
  end.

Definition p_value_cell (r : test_result) : cell :=
  match p_val r with
  | Some x => CFloat (np_round x 4)
  | None => na
  end.

(** [holdout_count / len(cities)] is a division of Python ints: it
    raises on a zero divisor. *)
Definition holdout_share (a : assignment) : Py.result float :=
  if len (a_cities a) =? 0 then Py.raise Py.ZeroDivisionError
  else Py.ret (Py.float_of_int (a_holdout_count a)
               / Py.float_of_int (len (a_cities a))
               * Py.float_of_int 100)%float.

Definition results (cfg : config) (a : assignment) (p : power_result)
           (test_group control_group : list float) (r : test_result)
  : Py.result (list (string * cell)) :=
  share <- holdout_share a ;;
  Py.ret
    [ ("Required Sample Size per Group", CInt (sample_needed p));
      ("Actual Sample Size (Test)", CInt (len test_group));
      ("Actual Sample Size (Control)", CInt (len control_group));
      ("Baseline Revenue", CFloat (np_round (baseline p) 2));
      ("Expected Lift ($)", CFloat (np_round (lift_amt p) 2));
      ("Effect Size", CFloat (np_round (effect_size p) 3));
      ("Observed Lift ($)", observed_lift_cell r);
      ("Observed % Lift", observed_percent_cell r);
      ("P-Value", p_value_cell r);
      ("Total Test Budget", CStr ("$" ++ format_float (py_round (total_budget cfg) 2)));
      ("Holdout Size %", CStr (format_float (py_round share 1) ++ "%")) ]%string.

Definition cell_mean (g : group) (d : Z) (test_df : list grouped_row)
  : option float :=
  match group_values g (filter (fun r => date (row r) =? d) test_df) with
  | [] => None
  | vs => Some (groupby_mean vs)
  end.

Definition avg_ts (test_df : list grouped_row)
  : list (Z * option float * option float) :=
  map (fun d => (d, cell_mean control d test_df, cell_mean test d test_df))
      (sorted_dates test_df).

(** *** The whole script (lines 24-101) *)

Definition upload_prompt : string :=
  "Please upload both metric CSV files to get started.".

Definition analysis (cfg : config) (revenue_df : list revenue_row) : app unit :=
  a <~ group_assignor revenue_df (holdout_pct cfg) ;;
  _ <~ show (SidebarWrite (sorted (a_control_cities a))) ;;
  let test_df := window_filter (test_weeks cfg) (a_revenue_df a) in
  p <~ lift (power_calculator cfg test_df) ;;
  let test_group := group_values test test_df in
  let control_group := group_values control test_df in
  _ <~ when (len control_group <? 5) (show (Warning ControlTooSmall)) ;;
  _ <~ when ((len test_group <? sample_needed p)
             || (len control_group <? sample_needed p))
            (show (Warning Underpowered)) ;;
  let r := significance_tester test_group control_group in
  table <~ lift (results cfg a p test_group control_group r) ;;
  _ <~ show (Dataframe table) ;;
  show (LineChart (avg_ts test_df)).

Definition main (cfg : config)
           (revenue_file : option (upload revenue_row))
           (orders_file : option (upload orders_row)) : app unit :=
  match revenue_file, orders_file with
  | Some rf, Some of_ =>
      revenue_df <~ lift (read_csv rf) ;;
      orders_df <~ lift (read_csv of_) ;;
      analysis cfg revenue_df
  | _, _ => show (Info upload_prompt)
  end.

(** One execution of the script: the page starts empty, the random
    state is whatever the process holds. *)
Definition run (cfg : config)
           (revenue_file : option (upload revenue_row))
           (orders_file : option (upload orders_row))
           (g : rng) : Py.result unit * list widget :=
  let (r, w) := main cfg revenue_file orders_file {| rng_state := g; screen := [] |} in
  (r, screen w).

End Script.

(** Reading the page back: the value shown for a metric of the summary
    table, and the tables on a page. *)
Definition lookup (key : string) (table : list (string * cell)) : option cell :=
  match find (fun kv => String.eqb (fst kv) key) table with
  | Some kv => Some (snd kv)
  | None => None
  end.

Definition dataframes (page : list widget) : list (list (string * cell)) :=
  flat_map (fun x => match x with Dataframe t => [t] | _ => [] end) page.

(** ** A small executable instance of the interface

    Used to run the script on concrete inputs.  The reductions are the
    textbook ones, evaluated left to right in binary64; the random state
    is a linear congruential generator whose permutation is a rotation;
    the solver is handed in, since its answers are not the script's. *)

Module Reference.

Definition sum (l : list float) : float :=
  fold_left PrimFloat.add l (Py.float_of_int 0).

Definition mean (l : list float) : float :=
  (sum l / Py.float_of_int (len l))%float.

(** Sample variance and deviation, [ddof = 1]. *)
Definition var (l : list float) : float :=
  let m := mean l in
  (sum (map (fun x => (x - m) * (x - m)) l) / Py.float_of_int (len l - 1))%float.

Definition std (l : list float) : float := PrimFloat.sqrt (var l).

(** Welch's statistic, the only variant the script asks for; the p-value
    needs Student's distribution and is left as NaN. *)
Definition welch (a b : list float) (equal_var : bool) : float * float :=
  let se := PrimFloat.sqrt (var a / Py.float_of_int (len a)
                            + var b / Py.float_of_int (len b)) in
  (((mean a - mean b) / se)%float, nan).

(** Rounding to [n] decimals, half away from zero, finite values only. *)
Definition round (x : float) (n : Z) : float :=
  let scale := Py.float_of_int (10 ^ n) in
  match Py.int_of_float (x * scale + (if (x <? 0)%float then -0.5 else 0.5))%float with
  | inr k => (Py.float_of_int k / scale)%float
  | inl _ => x
  end.

(** Printing with two decimals; the specials as Python prints them. *)
Definition digits (n : Z) : string :=
  NilZero.string_of_uint (N.to_uint (Z.to_N n)).

Definition format (x : float) : string :=
  match Prim2SF x with
  | S754_nan => "nan"
  | S754_infinity false => "inf"
  | S754_infinity true => "-inf"
  | _ =>
      match Py.int_of_float (round (x * Py.float_of_int 100)%float 0) with
      | inr c =>
          let a := Z.abs c in
          ((if Z.ltb c 0 then "-" else "")
             ++ digits (Z.div a 100) ++ "."
             ++ digits (Z.div (Z.modulo a 100) 10) ++ digits (Z.modulo a 10))%string
      | inl _ => "nan"
      end
  end.

Definition lcg (g : Z) : Z := (g * 1103515245 + 12345) mod 2147483648.

Definition rotate (g : Z) (n : nat) : list nat :=
  let k := Z.to_nat (g mod (Z.of_nat n)) in
  skipn k (seq 0 n) ++ firstn k (seq 0 n).

Definition rotate_perm (g : Z) (n : nat) : Permutation (rotate g n) (seq 0 n) :=
  let k := Z.to_nat (g mod (Z.of_nat n)) in
  Permutation_trans
    (Permutation_app_comm (skipn k (seq 0 n)) (firstn k (seq 0 n)))
    (eq_ind_r (fun l => Permutation l (seq 0 n))
              (Permutation_refl (seq 0 n))
              (firstn_skipn k (seq 0 n))).

#[local] Instance library (solver : float -> float -> float -> Py.result float)
  : Library := {|
  rng := Z;
  np_random_seed := fun s => s;
  np_random_permutation := fun g n => (rotate g n, lcg g);
  np_random_permutation_perm := rotate_perm;
  series_mean := mean;
  series_std := std;
  groupby_mean := mean;
  ttest_ind := welch;
  solve_power := solver;
  np_round := round;
  py_round := round;
  format_float := format
|}.

(** A stand-in for the solver: it answers [n] on a finite effect size and
    NaN on an infinite or NaN one, which is what statsmodels' solver
    returns there. *)
Definition solver_answers (n : float) : float -> float -> float -> Py.result float :=
  fun effect_size _ _ =>
    if Py.is_finite effect_size then Py.ret n else Py.ret nan.

End Reference.

(** Rows and forms for the examples. *)
Definition day (n : Z) : Z := n * ns_per_day.

Definition rev_row (d : Z) (city : string) (x : Z) : revenue_row :=
  {| date := day d; geo_location := city; revenue := Py.float_of_int x |}.

Definition default_config : config :=
  {| weekly_budget := 500;
     budget_increase_pct := 20;
     test_weeks := 4;
     holdout_pct := 20;
     alpha := (Py.float_of_int 1 / Py.float_of_int 10)%float;
     power := (Py.float_of_int 8 / Py.float_of_int 10)%float |}.

Definition no_holdout : config :=
  {| weekly_budget := 500;
     budget_increase_pct := 20;
     test_weeks := 4;
     holdout_pct := 0;
     alpha := (Py.float_of_int 1 / Py.float_of_int 10)%float;
     power := (Py.float_of_int 8 / Py.float_of_int 10)%float |}.

Definition five_cities : list revenue_row :=
  [ rev_row 1 "A" 10; rev_row 1 "B" 8; rev_row 1 "C" 12; rev_row 1 "D" 9;
    rev_row 1 "E" 11; rev_row 2 "A" 12; rev_row 2 "B" 9; rev_row 2 "C" 11;
    rev_row 2 "D" 8; rev_row 2 "E" 10 ].

(** The reference instance with a solver that answers 7 where the effect
    size is finite. *)
Definition ref7 : Library := Reference.library (Reference.solver_answers (Py.float_of_int 7)).

Definition fresh (g : Z) : @world ref7 := @Build_world ref7 g [].

Definition two_days : list grouped_row :=
  [ {| row := rev_row 1 "A" 10; grp := test |};
    {| row := rev_row 2 "A" 12; grp := test |} ].

Definition one_obs : list float := [Py.float_of_int 10].
Definition two_obs : list float := [Py.float_of_int 8; Py.float_of_int 9].
Definition three_obs : list float :=
  [Py.float_of_int 10; Py.float_of_int 12; Py.float_of_int 11].

(** A week of identical revenue in five cities: the deviation is zero. *)
Definition flat_revenue : list revenue_row :=
  [ rev_row 1 "A" 10; rev_row 1 "B" 10; rev_row 1 "C" 10; rev_row 1 "D" 10;
    rev_row 1 "E" 10; rev_row 2 "A" 10; rev_row 2 "B" 10; rev_row 2 "C" 10;
    rev_row 2 "D" 10; rev_row 2 "E" 10 ].

Definition flat_window : list grouped_row :=
  window_filter 4 (add_group ["C"%string] flat_revenue).

(** The assignment the reference instance makes on [flat_revenue] at 20%. *)
Definition flat_assignment : assignment :=
  {| a_cities := cities flat_revenue;
     a_holdout_count := 1;
     a_control_cities := ["C"%string];
     a_revenue_df := add_group ["C"%string] flat_revenue |}.


(** ** Notions for the further properties *)

(** The warnings of lines 59-64, in the order they are raised. *)
Definition warnings (sample_needed : Z) (test_group control_group : list float)
  : list widget :=
  (if len control_group <? 5 then [Warning ControlTooSmall] else [])
  ++ (if (len test_group <? sample_needed) || (len control_group <? sample_needed)
      then [Warning Underpowered] else []).

(** A table, or a page, with one metric left out. *)
Definition without (key : string) (table : list (string * cell))
  : list (string * cell) :=
  filter (fun kv => negb (String.eqb (fst kv) key)) table.

Definition page_without (key : string) (page : list widget) : list widget :=
  map (fun x => match x with
                | Dataframe t => Dataframe (without key t)
                | _ => x
                end) page.

(** The form with another weekly budget. *)
Definition with_weekly_budget (b : Z) (cfg : config) : config :=
  {| weekly_budget := b;
     budget_increase_pct := budget_increase_pct cfg;
     test_weeks := test_weeks cfg;
     holdout_pct := holdout_pct cfg;
     alpha := alpha cfg;
     power := power cfg |}.

(** The form with another holdout share. *)
Definition with_holdout_pct (h : Z) (cfg : config) : config :=
  {| weekly_budget := weekly_budget cfg;
     budget_increase_pct := budget_increase_pct cfg;
     test_weeks := test_weeks cfg;
     holdout_pct := h;
     alpha := alpha cfg;
     power := power cfg |}.

(** The page of an execution, and how it ended. *)
Definition outcome {L : Library} {A} (x : Py.result A * world)
  : Py.result A * list widget :=
  (fst x, screen (snd x)).

(** The reference instance with a solver that answers NaN. *)
Definition ref_nan : Library := Reference.library (Reference.solver_answers nan).

(** The assignment the reference instance makes on [five_cities] at 20%. *)
Definition five_cities_assignment : assignment :=
  {| a_cities := cities five_cities;
     a_holdout_count := 1;
     a_control_cities := ["C"%string];
     a_revenue_df := add_group ["C"%string] five_cities |}.

(** The window of [five_cities] under that assignment, and the power
    result of the reference instance on it. *)
Definition five_cities_window : list grouped_row :=
  window_filter (test_weeks default_config) (a_revenue_df five_cities_assignment).

Definition five_cities_power : power_result :=
  {| baseline := @baseline_of ref7 five_cities_window;
     std_dev := @std_dev_of ref7 five_cities_window;
     lift_amt := @lift_amt_of ref7 20 five_cities_window;
     effect_size := @effect_size_of ref7 20 five_cities_window;
     sample_needed := 7 |}.

(** The table sizes and slider positions, up to 300 cities, at which the
    binary64 product of line 32 falls just under the exact one. *)
Definition short_by_one : list (nat * Z) :=
  [ (100%nat, 29); (180%nat, 35); (200%nat, 29); (300%nat, 41) ].

Definition is_short_by_one (n : nat) (pct : Z) : bool :=
  existsb (fun q => Nat.eqb (fst q) n && (snd q =? pct)) short_by_one.

Definition holdout_count_as_expected (n : nat) (pct : Z) : bool :=
  match holdout_count n pct with
  | inr k =>
      if is_short_by_one n pct then k =? Z.of_nat n * pct / 100 - 1
      else k =? Z.of_nat n * pct / 100
  | inl _ => false
  end.

(** The window of [five_cities] with no control city, and the power
    result of the reference instance on it. *)
Definition five_cities_all_test : list grouped_row :=
  window_filter (test_weeks no_holdout) (add_group [] five_cities).

Definition five_cities_power_all_test : power_result :=
  {| baseline := @baseline_of ref7 five_cities_all_test;
     std_dev := @std_dev_of ref7 five_cities_all_test;
     lift_amt := @lift_amt_of ref7 20 five_cities_all_test;
     effect_size := @effect_size_of ref7 20 five_cities_all_test;
     sample_needed := 7 |}.

(** * Properties *)

(** ** Conversions *)

Example int_examples :
  Py.int_of_float 2.75 = inr 2 /\
  Py.int_of_float (-2.75) = inr (-2) /\
  Py.int_of_ceil 6.25 = inr 7 /\
  Py.int_of_ceil (-1.5) = inr (-1) /\
  Py.int_of_ceil 7 = inr 7 /\
  Py.int_of_ceil nan = inl Py.ValueError /\
  Py.int_of_ceil infinity = inl Py.OverflowError /\
  Py.floor (-2.75) = Some (-3).
Proof. repeat split; vm_compute; reflexivity. Qed.

(** ** Lists *)

Lemma unique_In (x : string) (l : list string) : In x (unique l) <-> In x l.
Proof.
  induction l as [|y t IH]; simpl; [tauto|].
  rewrite filter_In, IH.
  destruct (String.eqb_spec y x) as [->|Hne]; simpl; split; intros H.
  - now left.
  - now left.
  - destruct H as [H|[H _]]; [now left|now right].
  - destruct H as [H|H]; [now left|right; split; [assumption|reflexivity]].
Qed.

Lemma unique_NoDup (l : list string) : NoDup (unique l).
Proof.
  induction l as [|y t IH]; simpl; constructor.
  - rewrite filter_In. intros [_ H].
    now rewrite String.eqb_refl in H.
  - now apply NoDup_filter.
Qed.

Lemma city_in_In (x : string) (l : list string) : city_in x l = true <-> In x l.
Proof.
  unfold city_in. rewrite existsb_exists. split.
  - intros [y [Hy E]]. apply String.eqb_eq in E. now subst.
  - intros H. exists x. split; [assumption|apply String.eqb_refl].
Qed.

Lemma filter_all {A} (f : A -> bool) (l : list A) :
  (forall x, In x l -> f x = true) -> filter f l = l.
Proof.
  induction l as [|a t IH]; simpl; intros H; [reflexivity|].
  rewrite (H a) by now left.
  f_equal. apply IH. intros x Hx. apply H. now right.
Qed.

Lemma filter_none {A} (f : A -> bool) (l : list A) :
  (forall x, In x l -> f x = false) -> filter f l = [].
Proof.
  induction l as [|a t IH]; simpl; intros H; [reflexivity|].
  rewrite (H a) by now left.
  apply IH. intros x Hx. apply H. now right.
Qed.

Lemma filter_split_length {A} (f : A -> bool) (l : list A) :
  (List.length (filter f l) + List.length (filter (fun x => negb (f x)) l)
   = List.length l)%nat.
Proof.
  induction l as [|a t IH]; simpl; [reflexivity|].
  destruct (f a); simpl; lia.
Qed.

(** Indexing a duplicate-free list at distinct valid positions gives
    distinct entries. *)
Lemma map_nth_NoDup (a : list string) (idx : list nat) :
  NoDup a -> NoDup idx -> (forall i, In i idx -> (i < List.length a)%nat) ->
  NoDup (map (fun i => nth i a EmptyString) idx).
Proof.
  intros Ha Hidx. induction Hidx as [|i t Hi Ht IH]; simpl; intros Hlt.
  - constructor.
  - constructor.
    + rewrite in_map_iff. intros [j [Ej Hj]].
      assert (j = i).
      { eapply (proj1 (NoDup_nth a EmptyString) Ha); auto using in_eq, in_cons. }
      now subst.
    + apply IH. intros j Hj. apply Hlt. now right.
Qed.

Lemma firstn_perm_seq (p : list nat) (n k : nat) :
  Permutation p (seq 0 n) -> (k <= n)%nat ->
  List.length (firstn k p) = k /\ NoDup (firstn k p)
  /\ (forall i, In i (firstn k p) -> (i < n)%nat).
Proof.
  intros Hp Hk.
  assert (Hlen : List.length p = n).
  { rewrite (Permutation_length Hp). apply length_seq. }
  assert (Hnd : NoDup p).
  { eapply Permutation_NoDup; [symmetry; exact Hp|apply seq_NoDup]. }
  repeat split.
  - rewrite length_firstn. lia.
  - rewrite <- (firstn_skipn k p) in Hnd. now apply NoDup_app_remove_r in Hnd.
  - intros i Hi.
    assert (In i p) by (rewrite <- (firstn_skipn k p); apply in_or_app; now left).
    apply (Permutation_in _ Hp) in H. apply in_seq in H. lia.
Qed.

(** ** Group assignor *)

Section Assignor.

Context {L : Library}.

Lemma control_cities_props (cs : list string) (k : Z) :
  NoDup cs -> 0 <= k <= len cs ->
  len (control_cities cs k) = k /\ NoDup (control_cities cs k) /\ incl (control_cities cs k) cs.
Proof.
  intros Hnd Hk. unfold control_cities, len in *.
  destruct (firstn_perm_seq _ (List.length cs) (Z.to_nat k)
              (np_random_permutation_perm (np_random_seed 42) (List.length cs)))
    as [Hlen [Hnd' Hlt]]; [lia|].
  repeat split.
  - rewrite length_map, Hlen. lia.
  - now apply map_nth_NoDup.
  - intros x Hx. apply in_map_iff in Hx. destruct Hx as [i [<- Hi]].
    apply nth_In. now apply Hlt.
Qed.

Lemma seed_then {A} (s : Z) (k : unit -> app A) (w : world) :
  seq_app (seed s) k w = k tt {| rng_state := np_random_seed s; screen := screen w |}.
Proof. reflexivity. Qed.

(** When the count is within the population, lines 30-34 run through and
    return the drawn cities. *)
Lemma group_assignor_runs (revenue_df : list revenue_row) (pct k : Z) (w : world) :
  holdout_count (List.length (cities revenue_df)) pct = inr k ->
  0 <= k <= len (cities revenue_df) ->
  exists g,
    group_assignor revenue_df pct w
    = (inr {| a_cities := cities revenue_df;
              a_holdout_count := k;
              a_control_cities := control_cities (cities revenue_df) k;
              a_revenue_df := add_group (control_cities (cities revenue_df) k) revenue_df |},
       {| rng_state := g; screen := screen w |}).
Proof.
  intros Hk [H0 Hn]. unfold group_assignor.
  rewrite seed_then. unfold seq_app at 1, lift. rewrite Hk.
  unfold seq_app, np_random_choice, pure, control_cities. cbn [rng_state screen].
  apply Z.ltb_ge in Hn. rewrite Hn.
  apply Z.ltb_ge in H0. rewrite H0.
  destruct (np_random_permutation (np_random_seed 42) (List.length (cities revenue_df)))
    as [p g] eqn:E.
  exists g. reflexivity.
Qed.

(** The control units are the drawn cities. *)
Lemma control_units_are_drawn (cs ctrl : list string) (x : string) :
  incl ctrl cs ->
  In x (filter (fun y => group_eqb (label ctrl y) control) cs) <-> In x ctrl.
Proof.
  intros Hincl. rewrite filter_In. unfold label.
  destruct (city_in x ctrl) eqn:E; simpl.
  - apply city_in_In in E. split; [intros _; assumption|intros H; split; auto].
  - split; [intros [_ H]; discriminate|].
    intros H. apply city_in_In in H. congruence.
Qed.

Lemma label_cases (ctrl : list string) (x : string) :
  group_eqb (label ctrl x) test = negb (group_eqb (label ctrl x) control).
Proof. unfold label. now destruct (city_in x ctrl). Qed.

End Assignor.

(** ** Binary64 facts the script relies on *)







(** Division by a zero: the quotient is an infinity or NaN, and stays so
    when scaled by a finite factor. *)
Lemma div_by_zero_not_finite (x y : float) :
  Py.is_zero y = true -> Py.is_finite (x / y) = false.
Proof.
  unfold Py.is_zero, Py.is_finite. rewrite div_spec. unfold SF64div, SFdiv.
  destruct (Prim2SF y); try discriminate. intros _.
  now destruct (Prim2SF x).
Qed.

Lemma mul_not_finite (x y : float) :
  Py.is_finite x = false -> Py.is_finite (x * y) = false.
Proof.
  unfold Py.is_finite. rewrite mul_spec. unfold SF64mul, SFmul.
  destruct (Prim2SF x); try discriminate; intros _; now destruct (Prim2SF y).
Qed.

(** What [Py.floor] returns is the floor of [(-1)^s * m * 2^e]. *)
Lemma floor_spec (x : float) (s : bool) (m : positive) (e k : Z) :
  Prim2SF x = S754_finite s m e -> Py.floor x = Some k ->
  (0 <= e -> k = cond_Zopp s (Zpos m) * 2 ^ e) /\
  (e < 0 -> k * 2 ^ (- e) <= cond_Zopp s (Zpos m) < (k + 1) * 2 ^ (- e)).
Proof.
  unfold Py.floor. intros -> Hk. inversion Hk; subst; clear Hk. split; intros He.
  - now apply Z.shiftl_mul_pow2.
  - rewrite <- (Z.opp_involutive e) at 1 3. rewrite Z.shiftl_opp_r.
    rewrite Z.shiftr_div_pow2 by lia.
    assert (Hp : 0 < 2 ^ (- e)) by (apply Z.pow_pos_nonneg; lia).
    pose proof (Z.mul_div_le (cond_Zopp s (Zpos m)) _ Hp).
    pose proof (Z.mul_succ_div_gt (cond_Zopp s (Zpos m)) _ Hp).
    lia.
Qed.

Section AssignorClaims.

Context {L : Library}.

(** Lines 30-34 in closed form: the state is reseeded, the count is
    computed, numpy checks it against the population, and the draw is
    made from the seeded state. *)
Lemma group_assignor_eq (revenue_df : list revenue_row) (pct : Z) (w : world) :
  group_assignor revenue_df pct w =
  let cs := cities revenue_df in
  let seeded := {| rng_state := np_random_seed 42; screen := screen w |} in
  match holdout_count (List.length cs) pct with
  | inl e => (inl e, seeded)
  | inr k =>
      if (len cs <? k) || (k <? 0) then (inl Py.ValueError, seeded)
      else (inr {| a_cities := cs;
                   a_holdout_count := k;
                   a_control_cities := control_cities cs k;
                   a_revenue_df := add_group (control_cities cs k) revenue_df |},
            {| rng_state := snd (np_random_permutation (np_random_seed 42) (List.length cs));
               screen := screen w |})
  end.
Proof.
  unfold group_assignor. rewrite seed_then. unfold seq_app at 1, lift.
  cbv zeta.
  destruct (holdout_count _ pct) as [e|k]; [reflexivity|].
  unfold seq_app, np_random_choice, pure, control_cities. cbn [rng_state screen].
  destruct (len (cities revenue_df) <? k); [reflexivity|].
  destruct (k <? 0); [reflexivity|]. cbn [orb].
  now destruct (np_random_permutation _ _).
Qed.


End AssignorClaims.

(** ** Claims on the group assignor *)

(** Five cities at a 10% holdout: the count is 0 and the control group
    is empty. *)
Example empty_control_group :
  match fst (@group_assignor ref7 five_cities 10 (fresh 0)) with
  | inr a =>
      a_holdout_count a = 0 /\ a_control_cities a = [] /\
      control_units a = [] /\ test_units a = cities five_cities
  | inl _ => False
  end.
Proof. vm_compute. repeat split; reflexivity. Qed.

(** C4.  Whenever the draw is possible, the assignor labels every city
    with exactly one of [control] and [test]: the two groups are
    disjoint, together they have as many units as there are cities, the
    control group is the set of drawn cities, and every row of the table
    carries the label of its city. *)
Theorem assignment_is_partition {L : Library}
        (revenue_df : list revenue_row) (pct k : Z) (w : world) :
  holdout_count (List.length (cities revenue_df)) pct = inr k ->
  0 <= k <= len (cities revenue_df) ->
  exists a w',
    group_assignor revenue_df pct w = (inr a, w') /\
    a_cities a = cities revenue_df /\
    (forall x, In x (a_cities a) ->
       (In x (control_units a) /\ ~ In x (test_units a)) \/
       (In x (test_units a) /\ ~ In x (control_units a))) /\
    (forall x, ~ (In x (control_units a) /\ In x (test_units a))) /\
    len (control_units a) + len (test_units a) = len (a_cities a) /\
    (forall x, In x (control_units a) <-> In x (a_control_cities a)) /\
    List.length (a_revenue_df a) = List.length revenue_df /\
    (forall r, In r (a_revenue_df a) ->
       In (row r) revenue_df /\
       (grp r = control -> In (geo_location (row r)) (control_units a)) /\
       (grp r = test -> In (geo_location (row r)) (test_units a))).
Proof.
  intros Hk Hrange.
  pose proof (unique_NoDup (map geo_location revenue_df)) as Hnd.
  fold (cities revenue_df) in Hnd.
  destruct (control_cities_props (cities revenue_df) k Hnd Hrange) as [Hlen [Hnd' Hincl]].
  destruct (group_assignor_runs revenue_df pct k w Hk Hrange) as [g Hrun].
  eexists. eexists. split; [exact Hrun|].
  unfold control_units, test_units.
  cbn [a_holdout_count a_control_cities a_cities a_revenue_df].
  set (ctrl := control_cities (cities revenue_df) k) in *.
  assert (Hex : forall x,
             ~ (In x (filter (fun y => group_eqb (label ctrl y) control) (cities revenue_df))
                /\ In x (filter (fun y => group_eqb (label ctrl y) test) (cities revenue_df)))).
  { intros x. rewrite !filter_In, label_cases.
    intros [[_ H1] [_ H2]]. rewrite H1 in H2. discriminate. }
  repeat split.
  - intros x Hx.
    destruct (group_eqb (label ctrl x) control) eqn:E.
    + left. assert (Hc : In x (filter (fun y => group_eqb (label ctrl y) control)
                                     (cities revenue_df)))
        by (apply filter_In; auto).
      split; [exact Hc|]. intros Ht. apply (Hex x). auto.
    + right. assert (Ht : In x (filter (fun y => group_eqb (label ctrl y) test)
                                      (cities revenue_df)))
        by (apply filter_In; split; [assumption|]; rewrite label_cases, E; reflexivity).
      split; [exact Ht|]. intros Hc. apply (Hex x). auto.
  - exact Hex.
  - unfold len. rewrite <- Nat2Z.inj_add. f_equal.
    rewrite <- (filter_split_length (fun y => group_eqb (label ctrl y) control)
                                    (cities revenue_df)).
    f_equal. f_equal. apply filter_ext. intros x. apply label_cases.
  - now apply control_units_are_drawn.
  - now apply control_units_are_drawn.
  - unfold add_group. apply length_map.
  - unfold add_group in H. apply in_map_iff in H. destruct H as [r0 [<- Hr0]]. exact Hr0.
  - unfold add_group in H. apply in_map_iff in H. destruct H as [r0 [<- Hr0]].
    cbn [row grp]. intros E. apply filter_In. split.
    + apply unique_In. now apply in_map.
    + now rewrite E.
  - unfold add_group in H. apply in_map_iff in H. destruct H as [r0 [<- Hr0]].
    cbn [row grp]. intros E. apply filter_In. split.
    + apply unique_In. now apply in_map.
    + now rewrite E.
Qed.

Lemma assignment_is_partition_witness :
  exists a w',
    @group_assignor ref7 five_cities 20 (fresh 0) = (inr a, w') /\
    a_cities a = cities five_cities /\
    (forall x, In x (a_cities a) ->
       (In x (control_units a) /\ ~ In x (test_units a)) \/
       (In x (test_units a) /\ ~ In x (control_units a))) /\
    (forall x, ~ (In x (control_units a) /\ In x (test_units a))) /\
    len (control_units a) + len (test_units a) = len (a_cities a) /\
    (forall x, In x (control_units a) <-> In x (a_control_cities a)) /\
    List.length (a_revenue_df a) = List.length five_cities /\
    (forall r, In r (a_revenue_df a) ->
       In (row r) five_cities /\
       (grp r = control -> In (geo_location (row r)) (control_units a)) /\
       (grp r = test -> In (geo_location (row r)) (test_units a))).
Proof.
  apply (@assignment_is_partition ref7 five_cities 20 1 (fresh 0)).
  - vm_compute. reflexivity.
  - split; vm_compute; intros H; discriminate H.
Defined.

(** C8.  Two runs on the same inputs render the same page, whatever
    random state each run starts from: line 30 resets the state to seed
    42 before the draw, so the assignor's result (cities, count, control
    cities, labelled table) and the state it leaves do not depend on the
    state it finds; the control cities are the draw made from seed 42. *)
Theorem holdout_assignment_deterministic {L : Library}
        (cfg : config) (revenue_file : option (upload revenue_row))
        (orders_file : option (upload orders_row))
        (revenue_df : list revenue_row) (pct : Z) (g1 g2 : rng) (w1 w2 : world) :
  run cfg revenue_file orders_file g1 = run cfg revenue_file orders_file g2 /\
  fst (group_assignor revenue_df pct w1) = fst (group_assignor revenue_df pct w2) /\
  rng_state (snd (group_assignor revenue_df pct w1))
  = rng_state (snd (group_assignor revenue_df pct w2)) /\
  (forall a w', group_assignor revenue_df pct w1 = (inr a, w') ->
                a_control_cities a
                = control_cities (cities revenue_df) (a_holdout_count a)).
Proof.
  split; [|split; [|split]].
  - unfold run, main.
    destruct revenue_file as [rf|]; [|reflexivity].
    destruct orders_file as [of_|]; [|reflexivity].
    unfold seq_app, lift.
    destruct (read_csv rf) as [e|df]; [reflexivity|].
    destruct (read_csv of_) as [e|odf]; [reflexivity|].
    unfold analysis, seq_app.
    rewrite !group_assignor_eq. reflexivity.
  - rewrite !group_assignor_eq. cbv zeta.
    destruct (holdout_count _ pct) as [e|k]; [reflexivity|].
    now destruct ((len (cities revenue_df) <? k) || (k <? 0)).
  - rewrite !group_assignor_eq. cbv zeta.
    destruct (holdout_count _ pct) as [e|k]; [reflexivity|].
    now destruct ((len (cities revenue_df) <? k) || (k <? 0)).
  - intros a w'. rewrite group_assignor_eq. cbv zeta.
    destruct (holdout_count _ pct) as [e|k]; [discriminate|].
    destruct ((len (cities revenue_df) <? k) || (k <? 0)); [discriminate|].
    intros E. inversion E; subst; clear E. reflexivity.
Qed.

(** ** Window filter *)

Lemma fold_max_spec (l : list Z) (a : Z) :
  a <= fold_left Z.max l a /\
  (forall x, In x l -> x <= fold_left Z.max l a) /\
  (fold_left Z.max l a = a \/ In (fold_left Z.max l a) l).
Proof.
  revert a. induction l as [|y t IH]; intros a; simpl.
  - repeat split; [lia|tauto|now left].
  - destruct (IH (Z.max a y)) as [H1 [H2 H3]]. repeat split.
    + lia.
    + intros x [->|Hx]; [lia|now apply H2].
    + destruct H3 as [H3|H3]; [|right; now right].
      rewrite H3. destruct (Z.max_spec a y) as [[_ ->]|[_ ->]]; [right|]; now left.
Qed.

Lemma fold_min_spec (l : list Z) (a : Z) :
  fold_left Z.min l a <= a /\
  (forall x, In x l -> fold_left Z.min l a <= x) /\
  (fold_left Z.min l a = a \/ In (fold_left Z.min l a) l).
Proof.
  revert a. induction l as [|y t IH]; intros a; simpl.
  - repeat split; [lia|tauto|now left].
  - destruct (IH (Z.min a y)) as [H1 [H2 H3]]. repeat split.
    + lia.
    + intros x [->|Hx]; [lia|now apply H2].
    + destruct H3 as [H3|H3]; [|right; now right].
      rewrite H3. destruct (Z.min_spec a y) as [[_ ->]|[_ ->]]; [|right]; now left.
Qed.

Lemma max_date_spec (df : list grouped_row) :
  df <> [] ->
  exists m, max_date df = Some m /\
            (exists r, In r df /\ date (row r) = m) /\
            (forall r, In r df -> date (row r) <= m).
Proof.
  destruct df as [|r0 t]; [congruence|]. intros _.
  unfold max_date.
  destruct (fold_max_spec (map (fun r => date (row r)) t) (date (row r0)))
    as [H1 [H2 H3]].
  eexists. split; [reflexivity|]. split.
  - destruct H3 as [H3|H3].
    + exists r0. split; [now left|now rewrite H3].
    + apply in_map_iff in H3. destruct H3 as [r [E Hr]].
      exists r. split; [now right|exact E].
  - intros r [<-|Hr]; [exact H1|].
    apply H2. now apply (in_map (fun r => date (row r))).
Qed.

Lemma min_date_spec (df : list grouped_row) (m : Z) :
  min_date df = Some m ->
  exists r, In r df /\ date (row r) = m.
Proof.
  destruct df as [|r0 t]; [discriminate|]. unfold min_date. intros E.
  inversion E as [E']; clear E.
  destruct (fold_min_spec (map (fun r => date (row r)) t) (date (row r0)))
    as [_ [_ H3]].
  destruct H3 as [H3|H3].
  - exists r0. split; [now left|now rewrite H3].
  - apply in_map_iff in H3. destruct H3 as [r [E Hr]].
    exists r. split; [now right|exact E].
Qed.

(** C5.  On a table with at least one row, the cutoff is the latest date
    minus [test_weeks * 7] days, and the window is exactly the rows dated
    strictly after the cutoff, in their order; a row dated on the cutoff
    itself is left out. *)
Theorem window_filter_strict_cutoff (weeks : Z) (df : list grouped_row) :
  df <> [] ->
  exists m,
    max_date df = Some m /\
    (exists r, In r df /\ date (row r) = m) /\
    (forall r, In r df -> date (row r) <= m) /\
    test_start weeks df = Some (m - weeks * 7 * ns_per_day) /\
    window_filter weeks df
    = filter (fun r => m - weeks * 7 * ns_per_day <? date (row r)) df /\
    (forall r, In r (window_filter weeks df)
               <-> In r df /\ m - weeks * 7 * ns_per_day < date (row r)) /\
    (forall r, date (row r) = m - weeks * 7 * ns_per_day ->
               ~ In r (window_filter weeks df)).
Proof.
  intros Hne. destruct (max_date_spec df Hne) as [m [Hm [Hex Hub]]].
  exists m. unfold window_filter, test_start. rewrite Hm.
  split; [reflexivity|]. split; [exact Hex|]. split; [exact Hub|].
  split; [reflexivity|]. split; [reflexivity|]. split.
  - intros r. rewrite filter_In, Z.ltb_lt. tauto.
  - intros r E Hin. apply filter_In in Hin. destruct Hin as [_ Hin].
    apply Z.ltb_lt in Hin. lia.
Qed.

Lemma window_filter_strict_cutoff_witness :
  exists m,
    max_date two_days = Some m /\
    (exists r, In r two_days /\ date (row r) = m) /\
    (forall r, In r two_days -> date (row r) <= m) /\
    test_start 4 two_days = Some (m - 4 * 7 * ns_per_day) /\
    window_filter 4 two_days
    = filter (fun r => m - 4 * 7 * ns_per_day <? date (row r)) two_days /\
    (forall r, In r (window_filter 4 two_days)
               <-> In r two_days /\ m - 4 * 7 * ns_per_day < date (row r)) /\
    (forall r, date (row r) = m - 4 * 7 * ns_per_day ->
               ~ In r (window_filter 4 two_days)).
Proof.
  apply (window_filter_strict_cutoff 4 two_days). discriminate.
Defined.

(** C6, as the script has it.  When the dates of the table span less than
    the window, the cutoff lies before the earliest row: the filter keeps
    every row, and the window is empty only if the table is. *)
Theorem window_longer_than_span_keeps_all (weeks s : Z) (df : list grouped_row) :
  date_span df = Some s ->
  s < weeks * 7 * ns_per_day ->
  window_filter weeks df = df /\ window_filter weeks df <> [].
Proof.
  unfold date_span. intros Hs Hlt.
  destruct (max_date df) as [m|] eqn:Hm; [|discriminate].
  destruct (min_date df) as [n|] eqn:Hn; [|discriminate].
  inversion Hs; subst; clear Hs.
  assert (Hne : df <> []) by (intros ->; discriminate).
  assert (Hlow : forall r, In r df -> n <= date (row r)).
  { destruct df as [|r0 t]; [congruence|].
    unfold min_date in Hn. inversion Hn as [Hn']; clear Hn.
    destruct (fold_min_spec (map (fun r => date (row r)) t) (date (row r0)))
      as [H1 [H2 _]].
    intros r [<-|Hr]; [exact H1|]. apply H2.
    now apply (in_map (fun r => date (row r))). }
  assert (E : window_filter weeks df = df).
  { unfold window_filter, test_start. rewrite Hm.
    apply filter_all. intros r Hr. apply Z.ltb_lt.
    specialize (Hlow r Hr). lia. }
  split; [exact E|now rewrite E].
Qed.

Lemma window_longer_than_span_keeps_all_witness :
  window_filter 4 two_days = two_days /\ window_filter 4 two_days <> [].
Proof.
  apply (window_longer_than_span_keeps_all 4 (day 1) two_days).
  - vm_compute. reflexivity.
  - vm_compute. reflexivity.
Defined.

(** C6, as the specification words it, fails: two rows one day apart and
    a four-week window; the span is shorter than the window and both rows
    are kept. *)
Lemma short_series_is_not_emptied :
  date_span two_days = Some (day 1) /\
  day 1 < 4 * 7 * ns_per_day /\
  window_filter 4 two_days = two_days /\
  window_filter 4 two_days <> [].
Proof.
  repeat split; try (vm_compute; reflexivity).
  vm_compute. discriminate.
Qed.

(** ** Significance tester *)

Section Tester.

Context {L : Library}.

Lemma results_cells (cfg : config) (a : assignment) (p : power_result)
      (tg cg : list float) (r : test_result) (table : list (string * cell)) :
  results cfg a p tg cg r = inr table ->
  lookup "Effect Size" table = Some (CFloat (np_round (effect_size p) 3)) /\
  lookup "Observed Lift ($)" table = Some (observed_lift_cell r) /\
  lookup "Observed % Lift" table = Some (observed_percent_cell r) /\
  lookup "P-Value" table = Some (p_value_cell r).
Proof.
  unfold results, Py.bind, Py.ret.
  destruct (holdout_share a) as [e|share]; [discriminate|].
  intros E. inversion E; subst; clear E.
  repeat split; reflexivity.
Qed.

Lemma tester_skips (tg cg : list float) :
  len tg < 2 \/ len cg < 2 -> significance_tester tg cg = unavailable.
Proof.
  intros H. unfold significance_tester.
  destruct (Z.leb_spec 2 (len tg)), (Z.leb_spec 2 (len cg)); try reflexivity.
  lia.
Qed.

Lemma tester_runs (tg cg : list float) :
  2 <= len tg -> 2 <= len cg ->
  significance_tester tg cg =
  {| t_stat := Some (fst (ttest_ind tg cg false));
     p_val := Some (snd (ttest_ind tg cg false));
     obs_lift := Some (series_mean tg - series_mean cg)%float;
     percent_lift :=
       Some ((series_mean tg - series_mean cg) / series_mean cg
             * Py.float_of_int 100)%float |}.
Proof.
  intros Ht Hc. unfold significance_tester.
  apply Z.leb_le in Ht, Hc. rewrite Ht, Hc. cbn [andb].
  now destruct (ttest_ind tg cg false).
Qed.

End Tester.

(** C1.  When either group has fewer than two observations the tester
    returns no statistic, no p-value and no lift: all four results are
    [None], whatever the imported routines would compute, and the summary
    shows "N/A" for the observed lift, the observed percent lift and the
    p-value. *)
Theorem small_groups_are_unavailable {L : Library}
        (test_group control_group : list float) :
  len test_group < 2 \/ len control_group < 2 ->
  significance_tester test_group control_group = unavailable /\
  t_stat (significance_tester test_group control_group) = None /\
  p_val (significance_tester test_group control_group) = None /\
  obs_lift (significance_tester test_group control_group) = None /\
  percent_lift (significance_tester test_group control_group) = None /\
  (forall L' : Library,
      @significance_tester L' test_group control_group
      = @significance_tester L test_group control_group) /\
  (forall cfg a p table,
      results cfg a p test_group control_group
              (significance_tester test_group control_group) = inr table ->
      lookup "Observed Lift ($)" table = Some (CStr "N/A") /\
      lookup "Observed % Lift" table = Some (CStr "N/A") /\
      lookup "P-Value" table = Some (CStr "N/A")).
Proof.
  intros H. rewrite (tester_skips _ _ H).
  do 5 (split; [reflexivity|]). split.
  - intros L'. apply (@tester_skips L'). exact H.
  - intros cfg a p table Hr. apply results_cells in Hr.
    destruct Hr as [_ [H1 [H2 H3]]]. auto.
Qed.

Lemma small_groups_are_unavailable_witness :
  @significance_tester ref7 one_obs two_obs = unavailable /\
  t_stat (@significance_tester ref7 one_obs two_obs) = None /\
  p_val (@significance_tester ref7 one_obs two_obs) = None /\
  obs_lift (@significance_tester ref7 one_obs two_obs) = None /\
  percent_lift (@significance_tester ref7 one_obs two_obs) = None /\
  (forall L' : Library,
      @significance_tester L' one_obs two_obs
      = @significance_tester ref7 one_obs two_obs) /\
  (forall cfg a p table,
      @results ref7 cfg a p one_obs two_obs
               (@significance_tester ref7 one_obs two_obs) = inr table ->
      lookup "Observed Lift ($)" table = Some (CStr "N/A") /\
      lookup "Observed % Lift" table = Some (CStr "N/A") /\
      lookup "P-Value" table = Some (CStr "N/A")).
Proof.
  apply (@small_groups_are_unavailable ref7 one_obs two_obs).
  left. vm_compute. reflexivity.
Defined.

(** A holdout of 0%: the control group is empty, the test is skipped and
    the page shows "N/A" three times. *)
Example run_without_control_group :
  map (fun t => (lookup "Observed Lift ($)" t, lookup "Observed % Lift" t,
                 lookup "P-Value" t))
      (dataframes (snd (@run ref7 no_holdout (Some (Csv five_cities))
                             (Some (Csv [])) 0)))
  = [(Some (CStr "N/A"), Some (CStr "N/A"), Some (CStr "N/A"))].
Proof. vm_compute. reflexivity. Qed.

(** C7.  With at least two observations in each group the tester calls
    the t-test with [equal_var = False] (Welch), and returns the
    difference of the means as the absolute lift and that difference
    divided by the control mean, times 100, as the percent lift.  When
    the control mean is zero that quotient is a division by zero: the
    percent lift is an infinity or NaN, no number. *)
Theorem welch_test_and_lift {L : Library} (test_group control_group : list float) :
  2 <= len test_group -> 2 <= len control_group ->
  t_stat (significance_tester test_group control_group)
  = Some (fst (ttest_ind test_group control_group false)) /\
  p_val (significance_tester test_group control_group)
  = Some (snd (ttest_ind test_group control_group false)) /\
  obs_lift (significance_tester test_group control_group)
  = Some (series_mean test_group - series_mean control_group)%float /\
  percent_lift (significance_tester test_group control_group)
  = Some ((series_mean test_group - series_mean control_group)
          / series_mean control_group * Py.float_of_int 100)%float /\
  (Py.is_zero (series_mean control_group) = true ->
   exists x, percent_lift (significance_tester test_group control_group) = Some x /\
             Py.is_finite x = false).
Proof.
  intros Ht Hc. rewrite (tester_runs _ _ Ht Hc). cbn [t_stat p_val obs_lift percent_lift].
  repeat split.
  intros Hz. eexists. split; [reflexivity|].
  apply mul_not_finite. now apply div_by_zero_not_finite.
Qed.

Lemma welch_test_and_lift_witness :
  t_stat (@significance_tester ref7 three_obs two_obs)
  = Some (fst (@ttest_ind ref7 three_obs two_obs false)) /\
  p_val (@significance_tester ref7 three_obs two_obs)
  = Some (snd (@ttest_ind ref7 three_obs two_obs false)) /\
  obs_lift (@significance_tester ref7 three_obs two_obs)
  = Some (@series_mean ref7 three_obs - @series_mean ref7 two_obs)%float /\
  percent_lift (@significance_tester ref7 three_obs two_obs)
  = Some ((@series_mean ref7 three_obs - @series_mean ref7 two_obs)
          / @series_mean ref7 two_obs * Py.float_of_int 100)%float /\
  (Py.is_zero (@series_mean ref7 two_obs) = true ->
   exists x, percent_lift (@significance_tester ref7 three_obs two_obs) = Some x /\
             Py.is_finite x = false).
Proof.
  apply (@welch_test_and_lift ref7 three_obs two_obs).
  - vm_compute. intros H. discriminate H.
  - vm_compute. intros H. discriminate H.
Defined.

(** The example of the specification: test group 10, 12, 11 against
    control 8, 9.  The means are 11 and 8.5, the lift 2.5, the percent
    lift 2.5 / 8.5 * 100. *)
Example lift_of_the_spec_example :
  obs_lift (@significance_tester ref7 three_obs two_obs) = Some 2.5%float /\
  percent_lift (@significance_tester ref7 three_obs two_obs)
  = Some (2.5 / 8.5 * 100)%float.
Proof. split; vm_compute; reflexivity. Qed.

(** A control group of mean zero: the percent lift comes out infinite. *)
Example percent_lift_on_zero_control_mean :
  percent_lift (@significance_tester ref7
                  [Py.float_of_int 1; Py.float_of_int 3]
                  [Py.float_of_int (-1); Py.float_of_int 1])
  = Some infinity.
Proof. vm_compute. reflexivity. Qed.

(** ** The orders file *)

(** C10, as the script has it.  Once the orders file has been read, its
    rows play no part: any two readable orders files give the same run,
    page and outcome alike, and that run is the analysis of the revenue
    table alone. *)
Theorem orders_rows_do_not_matter {L : Library}
        (cfg : config) (revenue_file : option (upload revenue_row))
        (orders1 orders2 : list orders_row) (g : rng) :
  run cfg revenue_file (Some (Csv orders1)) g
  = run cfg revenue_file (Some (Csv orders2)) g /\
  (forall revenue_df,
      revenue_file = Some (Csv revenue_df) ->
      run cfg revenue_file (Some (Csv orders1)) g
      = (fst (analysis cfg revenue_df {| rng_state := g; screen := [] |}),
         screen (snd (analysis cfg revenue_df {| rng_state := g; screen := [] |})))).
Proof.
  split.
  - unfold run, main. destruct revenue_file as [rf|]; [|reflexivity].
    unfold seq_app, lift. destruct (read_csv rf); reflexivity.
  - intros revenue_df ->. unfold run, main, seq_app, lift. cbn [read_csv Py.ret].
    now destruct (analysis cfg revenue_df _).
Qed.

(** C10, as the specification words it, fails: an orders file that
    [read_csv] rejects stops the run at line 27 with nothing rendered,
    where a readable one lets the analysis through. *)
Lemma unreadable_orders_file_stops_the_run :
  @run ref7 default_config (Some (Csv five_cities))
       (Some (Unreadable Py.ParserError)) 0
  = (inl Py.ParserError, []) /\
  fst (@run ref7 default_config (Some (Csv five_cities)) (Some (Csv [])) 0)
  = inr tt /\
  List.length (dataframes (snd (@run ref7 default_config (Some (Csv five_cities))
                                     (Some (Csv [])) 0))) = 1%nat.
Proof. repeat split; vm_compute; reflexivity. Qed.

(** ** The holdout count over the slider's range *)

Lemma holdout_count_checked :
  forallb (fun n => forallb (fun p => holdout_count_ok n (Z.of_nat p)) (seq 0 51))
          (seq 0 301) = true.
Proof. vm_compute. reflexivity. Qed.

(** For up to 300 cities and every position of the holdout slider
    (0 to 50 percent) the count is computed without error and lies
    between 0 and the number of cities, so the draw is possible. *)
Lemma holdout_count_in_range (n : nat) (pct : Z) :
  (n <= 300)%nat -> 0 <= pct <= 50 ->
  exists k, holdout_count n pct = inr k /\ 0 <= k <= Z.of_nat n.
Proof.
  intros Hn Hp. pose proof holdout_count_checked as H.
  rewrite forallb_forall in H.
  specialize (H n). rewrite forallb_forall in H.
  assert (Hin : In n (seq 0 301)) by (apply in_seq; lia).
  specialize (H Hin (Z.to_nat pct)).
  assert (Hip : In (Z.to_nat pct) (seq 0 51)) by (apply in_seq; lia).
  specialize (H Hip). rewrite Z2Nat.id in H by lia.
  unfold holdout_count_ok in H.
  destruct (holdout_count n pct) as [e|k]; [discriminate|].
  exists k. split; [reflexivity|].
  apply andb_prop in H. destruct H as [H1 H2].
  apply Z.leb_le in H1, H2. lia.
Qed.

(** The count is the floor of the binary64 product, not of the exact
    one: 5 cities at 20% give 1, 10 cities at 30% give 3, and 100 cities
    at 29% give 28, since [100 * (29 / 100)] rounds to just under 29. *)
Example holdout_count_examples :
  holdout_count 5 20 = inr 1 /\
  holdout_count 10 30 = inr 3 /\
  holdout_count 100 29 = inr 28.
Proof. repeat split; vm_compute; reflexivity. Qed.

(** * Further properties of the script *)

(** ** The page of a run *)

Section Page.

Context {L : Library}.

(** Lines 29-98 in closed form: where the analysis can stop, and what is
    on the page when it does. *)
Lemma analysis_page (cfg : config) (revenue_df : list revenue_row) (w : world) :
  outcome (analysis cfg revenue_df w) =
  match fst (group_assignor revenue_df (holdout_pct cfg) w) with
  | inl e => (inl e, screen w)
  | inr a =>
      let test_df := window_filter (test_weeks cfg) (a_revenue_df a) in
      let tg := group_values test test_df in
      let cg := group_values control test_df in
      let side := SidebarWrite (sorted (a_control_cities a)) in
      match power_calculator cfg test_df with
      | inl e => (inl e, screen w ++ [side])
      | inr p =>
          match results cfg a p tg cg (significance_tester tg cg) with
          | inl e => (inl e, screen w ++ side :: warnings (sample_needed p) tg cg)
          | inr table =>
              (inr tt,
               screen w ++ side :: warnings (sample_needed p) tg cg
                 ++ [Dataframe table; LineChart (avg_ts test_df)])
          end
      end
  end.
Proof.
  unfold outcome, analysis, seq_app. rewrite group_assignor_eq. cbv zeta.
  destruct (holdout_count _ _) as [e|k]; [reflexivity|].
  destruct ((len (cities revenue_df) <? k) || (k <? 0)); [reflexivity|].
  cbn [fst snd a_revenue_df a_control_cities].
  unfold lift at 1.
  destruct (power_calculator cfg _) as [e|p]; [reflexivity|].
  unfold warnings, when, show, pure, lift.
  destruct (len (group_values control _) <? 5);
    destruct ((len (group_values test _) <? sample_needed p)
              || (len (group_values control _) <? sample_needed p));
    cbn [fst snd screen rng_state];
    destruct (results cfg _ p _ _ _) as [e|table];
    cbn [fst snd screen rng_state]; rewrite <- ?app_assoc; reflexivity.
Qed.

Lemma run_page (cfg : config) (revenue_df : list revenue_row)
      (orders_df : list orders_row) (g : rng) :
  run cfg (Some (Csv revenue_df)) (Some (Csv orders_df)) g
  = outcome (analysis cfg revenue_df {| rng_state := g; screen := [] |}).
Proof.
  unfold run, main, seq_app, lift, outcome. cbn [read_csv Py.ret].
  now destruct (analysis cfg revenue_df _).
Qed.

End Page.

(** X1.  Nothing of the analysis is rendered unless both files are
    present and readable.  With a file missing the page is the upload
    prompt alone and the run ends normally, whatever the other file
    holds; with both present, an unreadable revenue file, or else an
    unreadable orders file, ends the run on its exception with an empty
    page (the revenue file is read first, line 26 before line 27). *)
Theorem analysis_needs_both_files {L : Library}
        (cfg : config) (revenue_file : option (upload revenue_row))
        (orders_file : option (upload orders_row)) (g : rng) :
  match revenue_file, orders_file with
  | Some (Csv revenue_df), Some (Csv _) =>
      run cfg revenue_file orders_file g
      = outcome (analysis cfg revenue_df {| rng_state := g; screen := [] |})
  | Some (Unreadable e), Some _ =>
      run cfg revenue_file orders_file g = (inl e, [])
  | Some (Csv _), Some (Unreadable e) =>
      run cfg revenue_file orders_file g = (inl e, [])
  | _, _ => run cfg revenue_file orders_file g = (inr tt, [Info upload_prompt])
  end.
Proof.
  destruct revenue_file as [[e|df]|], orders_file as [[e'|odf]|];
    try reflexivity.
  apply run_page.
Qed.

(** X2.  The two groups of lines 55-56 split the window: every row of
    the window gives its revenue to exactly one of [test_group] and
    [control_group], so the two actual sample sizes add up to the number
    of rows in the window. *)
Theorem groups_split_the_window (test_df : list grouped_row) :
  len (group_values test test_df) + len (group_values control test_df)
  = len test_df /\
  Permutation (group_values test test_df ++ group_values control test_df)
              (map (fun r => revenue (row r)) test_df).
Proof.
  unfold group_values, len. split.
  - rewrite !length_map, <- Nat2Z.inj_add. f_equal.
    rewrite <- (filter_split_length (fun r => group_eqb (grp r) test) test_df).
    f_equal. f_equal. apply filter_ext. intros r. now destruct (grp r).
  - rewrite <- map_app. apply Permutation_map.
    induction test_df as [|r t IH]; simpl; [constructor|].
    destruct (grp r); simpl.
    + apply Permutation_sym, Permutation_cons_app, Permutation_sym, IH.
    + now constructor.
Qed.

(** X3.  [cities] (line 31) lists every [geo_location] of the revenue
    table exactly once, so there are at most as many cities as rows, and
    an empty table is the only one without cities. *)
Theorem cities_are_the_distinct_locations (revenue_df : list revenue_row) :
  NoDup (cities revenue_df) /\
  (forall c, In c (cities revenue_df)
             <-> exists r, In r revenue_df /\ geo_location r = c) /\
  len (cities revenue_df) <= len revenue_df /\
  (cities revenue_df = [] <-> revenue_df = []).
Proof.
  unfold cities. split; [apply unique_NoDup|]. split; [|split].
  - intros c. rewrite unique_In, in_map_iff. split; intros [r H]; exists r; tauto.
  - unfold len. apply inj_le.
    rewrite <- (length_map geo_location revenue_df).
    apply NoDup_incl_length; [apply unique_NoDup|].
    intros c Hc. now apply unique_In.
  - split; intros E; [|now subst].
    destruct revenue_df as [|r t]; [reflexivity|]. discriminate E.
Qed.

(** ** The window *)

Lemma max_date_unique (df : list grouped_row) (m : Z) :
  (exists r, In r df /\ date (row r) = m) ->
  (forall r, In r df -> date (row r) <= m) ->
  max_date df = Some m.
Proof.
  intros [r0 [Hin E]] Hub.
  assert (Hne : df <> []) by (intros ->; contradiction).
  destruct (max_date_spec df Hne) as [m' [Hm' [[r1 [Hin1 E1]] Hub']]].
  rewrite Hm'. f_equal.
  specialize (Hub r1 Hin1). specialize (Hub' r0 Hin). lia.
Qed.

Lemma filter_narrows (c1 c2 : Z) (df : list grouped_row) :
  c2 <= c1 ->
  filter (fun r => c1 <? date (row r)) (filter (fun r => c2 <? date (row r)) df)
  = filter (fun r => c1 <? date (row r)) df.
Proof.
  intros Hle. induction df as [|r t IH]; simpl; [reflexivity|].
  destruct (Z.ltb_spec c2 (date (row r))) as [H2|H2]; simpl.
  - now rewrite IH.
  - rewrite IH. destruct (Z.ltb_spec c1 (date (row r))); [lia|reflexivity].
Qed.

(** X4.  With a test duration of at least one week (the slider starts
    at 1) the window of a non-empty table is never empty: it keeps every
    row of the latest date, and its own latest date is that of the
    table. *)
Theorem window_keeps_latest_rows (weeks : Z) (df : list grouped_row) :
  1 <= weeks -> df <> [] ->
  window_filter weeks df <> [] /\
  max_date (window_filter weeks df) = max_date df /\
  (forall r, In r df -> max_date df = Some (date (row r)) ->
             In r (window_filter weeks df)).
Proof.
  intros Hw Hne.
  destruct (max_date_spec df Hne) as [m [Hm [[r0 [Hin0 E0]] Hub]]].
  assert (Hpos : 0 < weeks * 7 * ns_per_day) by (unfold ns_per_day; lia).
  assert (Hkeep : forall r, In r df -> date (row r) = m ->
                            In r (window_filter weeks df)).
  { intros r Hr E. unfold window_filter, test_start. rewrite Hm.
    apply filter_In. split; [assumption|]. apply Z.ltb_lt. lia. }
  split; [|split].
  - intros E. specialize (Hkeep r0 Hin0 E0). rewrite E in Hkeep. contradiction.
  - rewrite Hm. apply max_date_unique.
    + exists r0. split; [now apply Hkeep|assumption].
    + intros r Hr. apply Hub. unfold window_filter, test_start in Hr.
      rewrite Hm in Hr. apply filter_In in Hr. tauto.
  - intros r Hr E. rewrite Hm in E. inversion E. now apply Hkeep.
Qed.

Lemma window_keeps_latest_rows_witness :
  window_filter 4 two_days <> [] /\
  max_date (window_filter 4 two_days) = max_date two_days /\
  (forall r, In r two_days -> max_date two_days = Some (date (row r)) ->
             In r (window_filter 4 two_days)).
Proof.
  apply (window_keeps_latest_rows 4 two_days).
  - lia.
  - discriminate.
Defined.

(** X5.  A shorter test duration gives a smaller window of the same
    table, and it makes no difference whether the shorter window is cut
    from the table or from a longer window of it. *)
Theorem window_shrinks_with_duration (w1 w2 : Z) (df : list grouped_row) :
  1 <= w1 -> w1 <= w2 ->
  incl (window_filter w1 df) (window_filter w2 df) /\
  window_filter w1 (window_filter w2 df) = window_filter w1 df.
Proof.
  intros H1 H12.
  destruct df as [|r0 t]; [split; [intros x Hx; exact Hx|reflexivity]|].
  set (df := r0 :: t) in *.
  assert (Hne : df <> []) by discriminate.
  destruct (window_keeps_latest_rows w2 df ltac:(lia) Hne) as [_ [Hmax _]].
  destruct (max_date_spec df Hne) as [m [Hm _]].
  assert (Hns : 0 < ns_per_day) by (unfold ns_per_day; lia).
  split.
  - intros r Hr. unfold window_filter, test_start in *. rewrite Hm in *.
    apply filter_In in Hr. destruct Hr as [Hin Hlt]. apply filter_In.
    split; [assumption|]. apply Z.ltb_lt in Hlt. apply Z.ltb_lt. nia.
  - unfold window_filter at 1. unfold test_start. rewrite Hmax, Hm.
    unfold window_filter, test_start. rewrite Hm.
    apply filter_narrows. nia.
Qed.

Lemma window_shrinks_with_duration_witness :
  incl (window_filter 1 two_days) (window_filter 4 two_days) /\
  window_filter 1 (window_filter 4 two_days) = window_filter 1 two_days.
Proof.
  apply (window_shrinks_with_duration 1 4 two_days); lia.
Defined.

(** ** The power calculator *)

Lemma max_date_add_group (c : list string) (df : list revenue_row) :
  max_date (add_group c df)
  = match df with
    | [] => None
    | r :: t => Some (fold_left Z.max (map date t) (date r))
    end.
Proof.
  destruct df as [|r t]; [reflexivity|].
  unfold add_group, max_date. cbn [map row]. now rewrite map_map.
Qed.

Lemma window_rows_add_group (c : list string) (cut : Z) (df : list revenue_row) :
  map row (filter (fun r => cut <? date (row r)) (add_group c df))
  = filter (fun r => cut <? date r) df.
Proof.
  unfold add_group. induction df as [|r t IH]; simpl; [reflexivity|].
  destruct (cut <? date r); simpl; now rewrite IH.
Qed.

(** The rows of the window, without their labels, do not depend on the
    control cities. *)
Lemma window_rows_any_draw (c1 c2 : list string) (weeks : Z) (df : list revenue_row) :
  map row (window_filter weeks (add_group c1 df))
  = map row (window_filter weeks (add_group c2 df)).
Proof.
  unfold window_filter, test_start. rewrite !max_date_add_group.
  destruct df as [|r t]; [reflexivity|].
  now rewrite !window_rows_add_group.
Qed.

(** X6.  The power analysis does not depend on the holdout: baseline,
    deviation, expected lift, effect size and required sample size are
    computed from all rows of the window, control and test alike, so
    they are the same for every choice of control cities and every
    holdout share. *)
Theorem power_analysis_ignores_the_holdout {L : Library}
        (cfg : config) (h : Z) (c1 c2 : list string) (revenue_df : list revenue_row) :
  power_calculator (with_holdout_pct h cfg)
                   (window_filter (test_weeks cfg) (add_group c1 revenue_df))
  = power_calculator cfg (window_filter (test_weeks cfg) (add_group c2 revenue_df)).
Proof.
  assert (E : forall c,
             map (fun r => revenue (row r))
                 (window_filter (test_weeks cfg) (add_group c revenue_df))
             = map revenue (map row (window_filter (test_weeks cfg)
                                                   (add_group c1 revenue_df)))).
  { intros c. rewrite (window_rows_any_draw c1 c). now rewrite map_map. }
  unfold power_calculator, effect_size_of, lift_amt_of, baseline_of, std_dev_of.
  cbn [with_holdout_pct budget_increase_pct alpha power].
  now rewrite (E c1), (E c2).
Qed.

(** What [Py.int_of_ceil] returns is the ceiling of [(-1)^s * m * 2^e]. *)
Lemma int_of_ceil_spec (x : float) (s : bool) (m : positive) (e n : Z) :
  Prim2SF x = S754_finite s m e -> Py.int_of_ceil x = inr n ->
  (0 <= e -> n = cond_Zopp s (Zpos m) * 2 ^ e) /\
  (e < 0 -> (n - 1) * 2 ^ (- e) < cond_Zopp s (Zpos m) <= n * 2 ^ (- e)).
Proof.
  unfold Py.int_of_ceil, Py.ret. intros -> Hn. inversion Hn; subst; clear Hn.
  assert (Hopp : cond_Zopp (negb s) (Zpos m) = - cond_Zopp s (Zpos m))
    by (destruct s; reflexivity).
  rewrite Hopp. split; intros He.
  - rewrite Z.shiftl_mul_pow2 by assumption. lia.
  - rewrite <- (Z.opp_involutive e) at 1 3. rewrite Z.shiftl_opp_r.
    rewrite Z.shiftr_div_pow2 by lia.
    assert (Hp : 0 < 2 ^ (- e)) by (apply Z.pow_pos_nonneg; lia).
    pose proof (Z.mul_div_le (- cond_Zopp s (Zpos m)) _ Hp).
    pose proof (Z.mul_succ_div_gt (- cond_Zopp s (Zpos m)) _ Hp).
    lia.
Qed.

(** X7.  Whenever the power calculator returns, the required sample size
    is the solver's answer rounded up: the answer is finite, and
    [sample_needed] is the least integer not below it. *)
Theorem sample_needed_is_the_ceiling {L : Library}
        (cfg : config) (test_df : list grouped_row) (p : power_result) :
  power_calculator cfg test_df = inr p ->
  exists v,
    solve_power (effect_size p) (alpha cfg) (power cfg) = inr v /\
    effect_size p = effect_size_of (budget_increase_pct cfg) test_df /\
    Py.is_finite v = true /\
    (Py.is_zero v = true -> sample_needed p = 0) /\
    (forall s m e, Prim2SF v = S754_finite s m e ->
       (0 <= e -> sample_needed p = cond_Zopp s (Zpos m) * 2 ^ e) /\
       (e < 0 -> (sample_needed p - 1) * 2 ^ (- e) < cond_Zopp s (Zpos m)
                 <= sample_needed p * 2 ^ (- e))).
Proof.
  unfold power_calculator, Py.bind, Py.ret. intros Hp.
  destruct (solve_power _ _ _) as [e|v] eqn:Hv; [discriminate|].
  destruct (Py.int_of_ceil v) as [e|n] eqn:Hn; [discriminate|].
  inversion Hp; subst; clear Hp. cbn [effect_size sample_needed].
  exists v. split; [exact Hv|]. split; [reflexivity|].
  split; [|split].
  - unfold Py.int_of_ceil, Py.is_finite, Py.raise in *.
    destruct (Prim2SF v); try discriminate; reflexivity.
  - unfold Py.int_of_ceil, Py.is_zero, Py.ret in *.
    destruct (Prim2SF v); try discriminate. intros _. now inversion Hn.
  - intros s m e Hsf. now apply (int_of_ceil_spec v).
Qed.

Lemma sample_needed_is_the_ceiling_witness :
  exists v,
    @solve_power ref7 (effect_size five_cities_power)
                 (alpha default_config) (power default_config) = inr v /\
    effect_size five_cities_power
    = @effect_size_of ref7 (budget_increase_pct default_config) five_cities_window /\
    Py.is_finite v = true /\
    (Py.is_zero v = true -> sample_needed five_cities_power = 0) /\
    (forall s m e, Prim2SF v = S754_finite s m e ->
       (0 <= e -> sample_needed five_cities_power = cond_Zopp s (Zpos m) * 2 ^ e) /\
       (e < 0 -> (sample_needed five_cities_power - 1) * 2 ^ (- e)
                 < cond_Zopp s (Zpos m)
                 <= sample_needed five_cities_power * 2 ^ (- e))).
Proof.
  apply (@sample_needed_is_the_ceiling ref7 default_config five_cities_window
           five_cities_power).
  vm_compute. reflexivity.
Defined.

(** X8.  A solver answer that is NaN or infinite cannot be converted at
    line 52: the power calculator raises [ValueError] for NaN and
    [OverflowError] for an infinity, and the run stops there, with the
    control cities in the sidebar and nothing else on the page. *)
Theorem unusable_solver_answer_stops_the_run {L : Library}
        (cfg : config) (revenue_df : list revenue_row) (a : assignment)
        (v : float) (w : world) :
  fst (group_assignor revenue_df (holdout_pct cfg) w) = inr a ->
  solve_power (effect_size_of (budget_increase_pct cfg)
                 (window_filter (test_weeks cfg) (a_revenue_df a)))
              (alpha cfg) (power cfg) = inr v ->
  Py.is_finite v = false ->
  exists e,
    (e = Py.ValueError \/ e = Py.OverflowError) /\
    Py.int_of_ceil v = inl e /\
    power_calculator cfg (window_filter (test_weeks cfg) (a_revenue_df a)) = inl e /\
    outcome (analysis cfg revenue_df w)
    = (inl e, screen w ++ [SidebarWrite (sorted (a_control_cities a))]).
Proof.
  intros Ha Hv Hfin.
  assert (He : exists e, (e = Py.ValueError \/ e = Py.OverflowError)
                         /\ Py.int_of_ceil v = inl e).
  { unfold Py.is_finite in Hfin. unfold Py.int_of_ceil, Py.raise.
    destruct (Prim2SF v); try discriminate.
    - exists Py.OverflowError. split; [now right|reflexivity].
    - exists Py.ValueError. split; [now left|reflexivity]. }
  destruct He as [e [Hcase He]]. exists e.
  assert (Hp : power_calculator cfg (window_filter (test_weeks cfg) (a_revenue_df a))
               = inl e).
  { unfold power_calculator, Py.bind. rewrite Hv, He. reflexivity. }
  repeat split; try assumption.
  rewrite analysis_page, Ha. cbv zeta. now rewrite Hp.
Qed.

Lemma unusable_solver_answer_stops_the_run_witness :
  exists e,
    (e = Py.ValueError \/ e = Py.OverflowError) /\
    Py.int_of_ceil nan = inl e /\
    @power_calculator ref_nan default_config
       (window_filter (test_weeks default_config)
                      (a_revenue_df five_cities_assignment)) = inl e /\
    outcome (@analysis ref_nan default_config five_cities (@Build_world ref_nan 0 []))
    = (inl e, screen (@Build_world ref_nan 0 [])
              ++ [SidebarWrite (sorted (a_control_cities five_cities_assignment))]).
Proof.
  apply (@unusable_solver_answer_stops_the_run ref_nan default_config five_cities
           five_cities_assignment nan (@Build_world ref_nan 0 [])).
  - vm_compute. reflexivity.
  - vm_compute. reflexivity.
  - vm_compute. reflexivity.
Defined.

(** ** The page of a completed run *)

Lemma dataframes_app (p q : list widget) :
  dataframes (p ++ q) = dataframes p ++ dataframes q.
Proof. unfold dataframes. apply flat_map_app. Qed.

Lemma dataframes_warnings (n : Z) (tg cg : list float) :
  dataframes (warnings n tg cg) = [].
Proof.
  unfold warnings.
  destruct (len cg <? 5); destruct ((len tg <? n) || (len cg <? n)); reflexivity.
Qed.

Lemma warnings_control (n : Z) (tg cg : list float) :
  In (Warning ControlTooSmall) (warnings n tg cg) <-> len cg < 5.
Proof.
  unfold warnings. rewrite in_app_iff.
  destruct (Z.ltb_spec (len cg) 5) as [H5|H5];
    destruct ((len tg <? n) || (len cg <? n)); simpl;
      intuition (try congruence; try lia).
Qed.

Lemma warnings_underpowered (n : Z) (tg cg : list float) :
  In (Warning Underpowered) (warnings n tg cg) <-> len tg < n \/ len cg < n.
Proof.
  unfold warnings. rewrite in_app_iff.
  destruct (len cg <? 5);
    destruct (Z.ltb_spec (len tg) n) as [Ht|Ht];
    destruct (Z.ltb_spec (len cg) n) as [Hc|Hc]; simpl;
      intuition (try congruence; try lia).
Qed.

Lemma results_returns {L : Library} (cfg : config) (a : assignment) (p : power_result)
      (tg cg : list float) (r : test_result) :
  a_cities a <> [] ->
  exists table, results cfg a p tg cg r = inr table /\ List.length table = 11%nat.
Proof.
  intros Hne. unfold results, holdout_share, Py.bind, Py.ret, len.
  destruct (a_cities a) as [|c t]; [congruence|].
  cbn [List.length]. rewrite Nat2Z.inj_succ.
  destruct (Z.eqb_spec (Z.succ (Z.of_nat (List.length t))) 0) as [E|_]; [lia|].
  eexists. split; reflexivity.
Qed.

(** X9.  The warnings are not fatal.  Once the assignor and the power
    calculator have returned on a table with at least one city, the run
    completes: the page is the sidebar list, then the warning for a
    control group under 5 rows exactly when that is the case, then the
    warning for a group below the required sample size exactly when that
    is the case, then one table of eleven metrics and the chart. *)
Theorem completed_run_page {L : Library}
        (cfg : config) (revenue_df : list revenue_row) (a : assignment)
        (p : power_result) (w : world) :
  fst (group_assignor revenue_df (holdout_pct cfg) w) = inr a ->
  power_calculator cfg (window_filter (test_weeks cfg) (a_revenue_df a)) = inr p ->
  revenue_df <> [] ->
  let test_df := window_filter (test_weeks cfg) (a_revenue_df a) in
  let tg := group_values test test_df in
  let cg := group_values control test_df in
  exists table,
    outcome (analysis cfg revenue_df w)
    = (inr tt,
       screen w ++ SidebarWrite (sorted (a_control_cities a))
         :: warnings (sample_needed p) tg cg
         ++ [Dataframe table; LineChart (avg_ts test_df)]) /\
    results cfg a p tg cg (significance_tester tg cg) = inr table /\
    List.length table = 11%nat /\
    (In (Warning ControlTooSmall) (warnings (sample_needed p) tg cg)
     <-> len cg < 5) /\
    (In (Warning Underpowered) (warnings (sample_needed p) tg cg)
     <-> len tg < sample_needed p \/ len cg < sample_needed p).
Proof.
  intros Ha Hp Hne test_df tg cg.
  assert (Hc : a_cities a <> []).
  { pose proof (group_assignor_eq revenue_df (holdout_pct cfg) w) as E.
    rewrite E in Ha. cbv zeta in Ha.
    destruct (holdout_count _ _) as [e|k]; [discriminate|].
    destruct ((len (cities revenue_df) <? k) || (k <? 0)); [discriminate|].
    cbn [fst] in Ha. inversion Ha; subst; clear Ha. cbn [a_cities].
    destruct revenue_df as [|r t]; [congruence|]. discriminate. }
  destruct (results_returns cfg a p tg cg (significance_tester tg cg) Hc)
    as [table [Ht Hlen]].
  exists table. split; [|split; [exact Ht|split; [exact Hlen|]]].
  - subst test_df tg cg. rewrite analysis_page, Ha. cbv zeta.
    now rewrite Hp, Ht.
  - split; [apply warnings_control|apply warnings_underpowered].
Qed.

Lemma completed_run_page_witness :
  exists table,
    outcome (@analysis ref7 default_config five_cities (fresh 0))
    = (inr tt,
       screen (fresh 0) ++ SidebarWrite (sorted (a_control_cities five_cities_assignment))
         :: warnings (sample_needed five_cities_power)
                     (group_values test five_cities_window)
                     (group_values control five_cities_window)
         ++ [Dataframe table; LineChart (@avg_ts ref7 five_cities_window)]) /\
    @results ref7 default_config five_cities_assignment five_cities_power
             (group_values test five_cities_window)
             (group_values control five_cities_window)
             (@significance_tester ref7 (group_values test five_cities_window)
                                   (group_values control five_cities_window))
    = inr table /\
    List.length table = 11%nat /\
    (In (Warning ControlTooSmall)
        (warnings (sample_needed five_cities_power)
                  (group_values test five_cities_window)
                  (group_values control five_cities_window))
     <-> len (group_values control five_cities_window) < 5) /\
    (In (Warning Underpowered)
        (warnings (sample_needed five_cities_power)
                  (group_values test five_cities_window)
                  (group_values control five_cities_window))
     <-> len (group_values test five_cities_window) < sample_needed five_cities_power
         \/ len (group_values control five_cities_window)
            < sample_needed five_cities_power).
Proof.
  refine (@completed_run_page ref7 default_config five_cities
            five_cities_assignment five_cities_power (fresh 0) _ _ _).
  - vm_compute. reflexivity.
  - vm_compute. reflexivity.
  - discriminate.
Defined.

Section Endings.

Context {L : Library}.

(** X10.  The summary table is the sign of a completed run.  A run that
    ends on an exception has no table on its page; a run that ends
    normally either shows the upload prompt alone (a file is missing) or
    ends with exactly one table followed by the chart. *)
Theorem table_only_on_completed_runs
        (cfg : config) (revenue_file : option (upload revenue_row))
        (orders_file : option (upload orders_row)) (g : rng) :
  match fst (run cfg revenue_file orders_file g) with
  | inl _ => dataframes (snd (run cfg revenue_file orders_file g)) = []
  | inr _ =>
      ((revenue_file = None \/ orders_file = None) /\
       snd (run cfg revenue_file orders_file g) = [Info upload_prompt]) \/
      (exists pre table chart,
          snd (run cfg revenue_file orders_file g)
          = pre ++ [Dataframe table; LineChart chart] /\
          dataframes pre = [])
  end.
Proof.
  destruct revenue_file as [[e|df]|], orders_file as [[e'|odf]|];
    try (cbn; left; split; [tauto|reflexivity]); try reflexivity.
  rewrite run_page, analysis_page. cbn [screen app].
  destruct (fst (group_assignor df _ _)) as [e|a]; [reflexivity|]. cbv zeta.
  destruct (power_calculator cfg _) as [e|p]; [reflexivity|].
  destruct (results cfg a p _ _ _) as [e|table]; cbn [fst snd].
  - cbn [dataframes flat_map app]. apply dataframes_warnings.
  - right. eexists (_ :: warnings _ _ _), table, _. split.
    + reflexivity.
    + cbn [dataframes flat_map app]. apply dataframes_warnings.
Qed.

(** X11.  A revenue table without rows never gets a summary.  The draw
    is empty and the sidebar shows no city; unless the power calculator
    raises on the empty window, the control group is reported too small
    and the run ends at line 90 on the division by the number of
    cities, before the table is rendered. *)
Theorem empty_table_never_completes
        (cfg : config) (orders_df : list orders_row) (g : rng) :
  0 <= holdout_pct cfg <= 50 ->
  (exists e, fst (run cfg (Some (Csv [])) (Some (Csv orders_df)) g) = inl e) /\
  dataframes (snd (run cfg (Some (Csv [])) (Some (Csv orders_df)) g)) = [] /\
  (forall e, power_calculator cfg [] = inl e ->
     run cfg (Some (Csv [])) (Some (Csv orders_df)) g = (inl e, [SidebarWrite []])) /\
  (forall p, power_calculator cfg [] = inr p ->
     run cfg (Some (Csv [])) (Some (Csv orders_df)) g
     = (inl Py.ZeroDivisionError,
        SidebarWrite [] :: Warning ControlTooSmall
          :: (if 0 <? sample_needed p then [Warning Underpowered] else []))).
Proof.
  intros Hpct.
  destruct (holdout_count_in_range 0 (holdout_pct cfg) ltac:(lia) Hpct)
    as [k [Hk Hk0]].
  assert (k = 0) by lia. subst k.
  assert (Hrun : run cfg (Some (Csv [])) (Some (Csv orders_df)) g
                 = match power_calculator cfg [] with
                   | inl e => (inl e, [SidebarWrite []])
                   | inr p =>
                       (inl Py.ZeroDivisionError,
                        SidebarWrite [] :: Warning ControlTooSmall
                          :: (if 0 <? sample_needed p
                              then [Warning Underpowered] else []))
                   end).
  { rewrite run_page, analysis_page, group_assignor_eq. cbv zeta.
    change (cities []) with (@nil string). cbn [List.length].
    rewrite Hk. cbn. destruct (power_calculator cfg []) as [e|p]; [reflexivity|].
    unfold warnings. cbn. rewrite Bool.orb_diag. reflexivity. }
  rewrite Hrun. repeat split.
  - destruct (power_calculator cfg []); eexists; reflexivity.
  - destruct (power_calculator cfg []) as [e|p]; [reflexivity|].
    cbn. now destruct (0 <? sample_needed p).
  - intros e ->. reflexivity.
  - intros p ->. reflexivity.
Qed.

End Endings.

Lemma empty_table_never_completes_witness :
  (exists e, fst (@run ref7 default_config (Some (Csv [])) (Some (Csv [])) 0) = inl e) /\
  dataframes (snd (@run ref7 default_config (Some (Csv [])) (Some (Csv [])) 0)) = [] /\
  (forall e, @power_calculator ref7 default_config [] = inl e ->
     @run ref7 default_config (Some (Csv [])) (Some (Csv [])) 0
     = (inl e, [SidebarWrite []])) /\
  (forall p, @power_calculator ref7 default_config [] = inr p ->
     @run ref7 default_config (Some (Csv [])) (Some (Csv [])) 0
     = (inl Py.ZeroDivisionError,
        SidebarWrite [] :: Warning ControlTooSmall
          :: (if 0 <? sample_needed p then [Warning Underpowered] else []))).
Proof.
  apply (@empty_table_never_completes ref7 default_config [] 0).
  vm_compute. split; intros H; discriminate H.
Defined.

(** ** A holdout count of zero *)

Lemma groups_sizes (test_df : list grouped_row) :
  len (group_values test test_df) + len (group_values control test_df)
  = len test_df.
Proof.
  unfold group_values, len.
  rewrite !length_map, <- Nat2Z.inj_add. f_equal.
  rewrite <- (filter_split_length (fun r => group_eqb (grp r) test) test_df).
  f_equal. f_equal. apply filter_ext. intros r. now destruct (grp r).
Qed.

Lemma no_control_rows (weeks : Z) (df : list revenue_row) :
  group_values control (window_filter weeks (add_group [] df)) = [].
Proof.
  unfold group_values. rewrite filter_none; [reflexivity|].
  intros r Hr. unfold window_filter in Hr.
  destruct (test_start weeks _); [|contradiction].
  apply filter_In in Hr. destruct Hr as [Hr _].
  unfold add_group in Hr. apply in_map_iff in Hr. destruct Hr as [r0 [<- _]].
  reflexivity.
Qed.

(** X12.  When the holdout count comes out as 0 (a share of 0%, or too
    few cities for the share) and the power calculator returns, the run
    still completes, with an empty control group: the sidebar lists no
    city, the control group is reported too small, the table gives a
    control sample size of 0 and "N/A" for the observed lift, the percent
    lift and the p-value. *)
Theorem zero_holdout_count_run {L : Library}
        (cfg : config) (revenue_df : list revenue_row)
        (orders_df : list orders_row) (p : power_result) (g : rng) :
  holdout_count (List.length (cities revenue_df)) (holdout_pct cfg) = inr 0 ->
  revenue_df <> [] ->
  power_calculator cfg (window_filter (test_weeks cfg) (add_group [] revenue_df))
  = inr p ->
  let test_df := window_filter (test_weeks cfg) (add_group [] revenue_df) in
  exists table,
    run cfg (Some (Csv revenue_df)) (Some (Csv orders_df)) g
    = (inr tt,
       SidebarWrite [] :: warnings (sample_needed p) (group_values test test_df) []
         ++ [Dataframe table; LineChart (avg_ts test_df)]) /\
    In (Warning ControlTooSmall)
       (warnings (sample_needed p) (group_values test test_df) []) /\
    len (group_values test test_df) = len test_df /\
    lookup "Actual Sample Size (Control)" table = Some (CInt 0) /\
    lookup "Observed Lift ($)" table = Some (CStr "N/A") /\
    lookup "Observed % Lift" table = Some (CStr "N/A") /\
    lookup "P-Value" table = Some (CStr "N/A").
Proof.
  intros Hk Hne Hp test_df. subst test_df.
  set (test_df := window_filter (test_weeks cfg) (add_group [] revenue_df)) in *.
  assert (Hcg : group_values control test_df = []) by apply no_control_rows.
  assert (Hc : cities revenue_df <> []).
  { destruct revenue_df as [|r t]; [congruence|]. discriminate. }
  set (a := {| a_cities := cities revenue_df; a_holdout_count := 0;
               a_control_cities := [];
               a_revenue_df := add_group [] revenue_df |}).
  destruct (results_returns cfg a p (group_values test test_df) []
              (significance_tester (group_values test test_df) []) Hc)
    as [table [Ht _]].
  exists table. split; [|split; [|split]].
  - rewrite run_page, analysis_page, group_assignor_eq. cbv zeta.
    rewrite Hk.
    assert (Hr : (len (cities revenue_df) <? 0) || (0 <? 0) = false).
    { unfold len. destruct (Z.ltb_spec (Z.of_nat (List.length (cities revenue_df))) 0);
        [lia|reflexivity]. }
    rewrite Hr. cbn [fst a_revenue_df a_control_cities screen app].
    change (control_cities (cities revenue_df) 0) with (@nil string).
    fold test_df. rewrite Hp, Hcg. fold a. rewrite Ht. reflexivity.
  - apply warnings_control. reflexivity.
  - pose proof (groups_sizes test_df) as Hs. rewrite Hcg in Hs.
    change (len (@nil float)) with 0 in Hs. lia.
  - pose proof Ht as Hcells. apply results_cells in Hcells.
    destruct Hcells as [_ [H1 [H2 H3]]].
    rewrite (tester_skips (group_values test test_df) []) in H1, H2, H3
      by (right; reflexivity).
    repeat split; try assumption.
    unfold results, Py.bind, Py.ret in Ht.
    destruct (holdout_share a); [discriminate|].
    inversion Ht; subst. reflexivity.
Qed.

Lemma zero_holdout_count_run_witness :
  exists table,
    @run ref7 no_holdout (Some (Csv five_cities)) (Some (Csv [])) 0
    = (inr tt,
       SidebarWrite []
         :: warnings (sample_needed five_cities_power_all_test)
                     (group_values test five_cities_all_test) []
         ++ [Dataframe table; LineChart (@avg_ts ref7 five_cities_all_test)]) /\
    In (Warning ControlTooSmall)
       (warnings (sample_needed five_cities_power_all_test)
                 (group_values test five_cities_all_test) []) /\
    len (group_values test five_cities_all_test) = len five_cities_all_test /\
    lookup "Actual Sample Size (Control)" table = Some (CInt 0) /\
    lookup "Observed Lift ($)" table = Some (CStr "N/A") /\
    lookup "Observed % Lift" table = Some (CStr "N/A") /\
    lookup "P-Value" table = Some (CStr "N/A").
Proof.
  refine (@zero_holdout_count_run ref7 no_holdout five_cities []
            five_cities_power_all_test 0 _ _ _).
  - vm_compute. reflexivity.
  - discriminate.
  - vm_compute. reflexivity.
Defined.

(** ** The holdout count against the exact share *)

Lemma holdout_count_compared :
  forallb (fun n => forallb (fun p => holdout_count_as_expected n (Z.of_nat p))
                            (seq 0 51))
          (seq 0 301) = true.
Proof. vm_compute. reflexivity. Qed.

(** X13.  For a revenue table with up to 300 cities and every position
    of the holdout slider, the group assignor returns, and the number of
    control cities is the exact floor of [N * pct / 100], except at four
    combinations (100 cities at 29%, 180 at 35%, 200 at 29%, 300 at 41%)
    where the binary64 product of line 32 falls just under an integer and
    one city fewer is drawn. *)
Theorem holdout_count_on_the_slider {L : Library}
        (revenue_df : list revenue_row) (pct : Z) (w : world) :
  (List.length (cities revenue_df) <= 300)%nat ->
  0 <= pct <= 50 ->
  exists a w',
    group_assignor revenue_df pct w = (inr a, w') /\
    len (a_control_cities a) = a_holdout_count a /\
    a_holdout_count a
    = len (cities revenue_df) * pct / 100
      - (if is_short_by_one (List.length (cities revenue_df)) pct then 1 else 0).
Proof.
  intros Hn Hp.
  set (n := List.length (cities revenue_df)) in *.
  pose proof holdout_count_compared as H.
  rewrite forallb_forall in H. specialize (H n).
  rewrite forallb_forall in H.
  assert (Hin : In n (seq 0 301)) by (apply in_seq; lia).
  assert (Hip : In (Z.to_nat pct) (seq 0 51)) by (apply in_seq; lia).
  specialize (H Hin (Z.to_nat pct) Hip). rewrite Z2Nat.id in H by lia.
  unfold holdout_count_as_expected in H.
  destruct (holdout_count n pct) as [e|k] eqn:Hk; [discriminate|].
  assert (Hval : k = Z.of_nat n * pct / 100
                     - (if is_short_by_one n pct then 1 else 0)).
  { destruct (is_short_by_one n pct); apply Z.eqb_eq in H; lia. }
  destruct (holdout_count_in_range n pct Hn Hp) as [k' [Hk' Hrange]].
  rewrite Hk in Hk'. inversion Hk'; subst k'.
  destruct (group_assignor_runs revenue_df pct k w Hk Hrange) as [g Hrun].
  eexists. eexists. split; [exact Hrun|].
  cbn [a_control_cities a_holdout_count]. split; [|exact Hval].
  apply control_cities_props; [apply unique_NoDup|exact Hrange].
Qed.

Lemma holdout_count_on_the_slider_witness :
  exists a w',
    @group_assignor ref7 five_cities 20 (fresh 0) = (inr a, w') /\
    len (a_control_cities a) = a_holdout_count a /\
    a_holdout_count a
    = len (cities five_cities) * 20 / 100
      - (if is_short_by_one (List.length (cities five_cities)) 20 then 1 else 0).
Proof.
  apply (@holdout_count_on_the_slider ref7 five_cities 20 (fresh 0)).
  - vm_compute. repeat constructor.
  - lia.
Defined.

(** ** The weekly budget *)

Lemma page_without_app (key : string) (p q : list widget) :
  page_without key (p ++ q) = page_without key p ++ page_without key q.
Proof. unfold page_without. apply map_app. Qed.

Lemma page_without_warnings (key : string) (n : Z) (tg cg : list float) :
  page_without key (warnings n tg cg) = warnings n tg cg.
Proof.
  unfold warnings.
  destruct (len cg <? 5); destruct ((len tg <? n) || (len cg <? n)); reflexivity.
Qed.

(** X14.  The weekly budget enters one line of the summary only (lines
    75 and 89): two runs that differ in the weekly budget alone end the
    same way, and their pages are equal once "Total Test Budget" is left
    out of the table; assignment, warnings, the other ten metrics and
    the chart are the same. *)
Theorem weekly_budget_changes_one_line {L : Library}
        (cfg : config) (b : Z) (revenue_file : option (upload revenue_row))
        (orders_file : option (upload orders_row)) (g : rng) :
  fst (run (with_weekly_budget b cfg) revenue_file orders_file g)
  = fst (run cfg revenue_file orders_file g) /\
  page_without "Total Test Budget"
    (snd (run (with_weekly_budget b cfg) revenue_file orders_file g))
  = page_without "Total Test Budget" (snd (run cfg revenue_file orders_file g)).
Proof.
  destruct revenue_file as [[e|df]|], orders_file as [[e'|odf]|];
    try (split; reflexivity).
  rewrite !run_page, !analysis_page.
  cbn [with_weekly_budget holdout_pct test_weeks screen app].
  destruct (fst (group_assignor df _ _)) as [e|a]; [split; reflexivity|].
  cbv zeta.
  change (power_calculator (with_weekly_budget b cfg)) with (power_calculator cfg).
  destruct (power_calculator cfg _) as [e|p]; [split; reflexivity|].
  unfold results, Py.bind, Py.ret.
  destruct (holdout_share a) as [e|share]; [split; reflexivity|].
  cbn [fst snd]. split; [reflexivity|].
  change (?x :: ?l ++ ?m) with ([x] ++ l ++ m).
  rewrite !page_without_app, !page_without_warnings. reflexivity.
Qed.

(** ** The chart and the sidebar list *)

Lemma insert_date_In (d x : Z) (l : list Z) :
  In x (insert_date d l) <-> x = d \/ In x l.
Proof.
  induction l as [|y t IH]; simpl; [intuition|].
  destruct (Z.ltb_spec d y); [simpl; intuition|].
  destruct (Z.eqb_spec d y); simpl; [subst; intuition|].
  rewrite IH. intuition.
Qed.

Lemma insert_date_sorted (d : Z) (l : list Z) :
  StronglySorted Z.lt l -> StronglySorted Z.lt (insert_date d l).
Proof.
  induction 1 as [|y t Hs IH Hall]; simpl.
  - repeat constructor.
  - destruct (Z.ltb_spec d y) as [Hlt|Hge].
    + constructor; [now constructor|]. constructor; [assumption|].
      eapply Forall_impl; [|exact Hall]. intros z Hz. simpl in Hz. lia.
    + destruct (Z.eqb_spec d y) as [->|Hne]; [now constructor|].
      constructor; [assumption|].
      apply Forall_forall. intros z Hz. apply insert_date_In in Hz.
      destruct Hz as [->|Hz]; [lia|].
      rewrite Forall_forall in Hall. now apply Hall.
Qed.

Lemma sorted_dates_spec (df : list grouped_row) :
  StronglySorted Z.lt (sorted_dates df) /\
  (forall d, In d (sorted_dates df) <-> exists r, In r df /\ date (row r) = d).
Proof.
  unfold sorted_dates. induction df as [|r t [IHs IHin]]; simpl.
  - split; [constructor|]. intros d. split; [contradiction|intros [r [[] _]]].
  - split; [now apply insert_date_sorted|].
    intros d. rewrite insert_date_In, IHin. split.
    + intros [->|[r' [Hr' E]]]; [exists r; auto|exists r'; auto].
    + intros [r' [[<-|Hr'] E]]; [now left|right; now exists r'].
Qed.

Lemma cell_mean_none {L : Library} (g : group) (d : Z) (test_df : list grouped_row) :
  cell_mean g d test_df = None
  <-> forall r, In r test_df -> date (row r) = d -> grp r <> g.
Proof.
  unfold cell_mean, group_values.
  destruct (map _ (filter _ (filter _ test_df))) as [|v vs] eqn:E.
  - split; [|reflexivity]. intros _ r Hr Hd Hg.
    apply map_eq_nil in E.
    assert (Hin : In r (filter (fun r => group_eqb (grp r) g)
                               (filter (fun r => date (row r) =? d) test_df))).
    { apply filter_In. split.
      - apply filter_In. split; [assumption|now apply Z.eqb_eq].
      - rewrite Hg. now destruct g. }
    rewrite E in Hin. contradiction.
  - split; [discriminate|]. intros Hno. exfalso.
    destruct (filter _ (filter _ test_df)) as [|r t] eqn:F; [discriminate|].
    assert (Hin : In r (r :: t)) by now left.
    rewrite <- F in Hin. apply filter_In in Hin. destruct Hin as [Hin Hg].
    apply filter_In in Hin. destruct Hin as [Hin Hd]. apply Z.eqb_eq in Hd.
    apply (Hno r Hin Hd). destruct (grp r), g; try discriminate; reflexivity.
Qed.

(** X15.  The chart data of line 97 has one line per date of the
    window, in strictly increasing order of date; a group has no value on
    a line exactly when it has no row of that date in the window, and
    no line is without a value. *)
Theorem chart_has_one_line_per_date {L : Library} (test_df : list grouped_row) :
  StronglySorted Z.lt (map (fun l => fst (fst l)) (avg_ts test_df)) /\
  (forall d, In d (map (fun l => fst (fst l)) (avg_ts test_df))
             <-> exists r, In r test_df /\ date (row r) = d) /\
  (forall d c t, In (d, c, t) (avg_ts test_df) ->
     (c = None <-> forall r, In r test_df -> date (row r) = d -> grp r <> control) /\
     (t = None <-> forall r, In r test_df -> date (row r) = d -> grp r <> test) /\
     (c <> None \/ t <> None)).
Proof.
  assert (E : map (fun l => fst (fst l)) (avg_ts test_df) = sorted_dates test_df).
  { unfold avg_ts. rewrite map_map. cbn [fst]. apply map_id. }
  rewrite E. destruct (sorted_dates_spec test_df) as [Hs Hin].
  split; [exact Hs|]. split; [exact Hin|].
  intros d c t Hl. unfold avg_ts in Hl. apply in_map_iff in Hl.
  destruct Hl as [d' [Heq Hd']]. inversion Heq; subst; clear Heq.
  split; [apply cell_mean_none|]. split; [apply cell_mean_none|].
  apply Hin in Hd'. destruct Hd' as [r [Hr Hd]].
  destruct (grp r) eqn:G.
  - left. intros Hc.
    now apply (proj1 (cell_mean_none control _ test_df) Hc r Hr Hd).
  - right. intros Ht.
    now apply (proj1 (cell_mean_none test _ test_df) Ht r Hr Hd).
Qed.

Lemma leb_total (a b : string) : String.leb a b = false -> String.leb b a = true.
Proof.
  unfold String.leb. rewrite (String.compare_antisym a b).
  now destruct (String.compare b a).
Qed.

Lemma insert_city_perm (c : string) (l : list string) :
  Permutation (insert_city c l) (c :: l).
Proof.
  induction l as [|x t IH]; simpl; [reflexivity|].
  destruct (String.leb c x); [reflexivity|].
  rewrite IH. apply perm_swap.
Qed.

Lemma insert_city_sorted (c : string) (l : list string) :
  Sorted (fun a b => String.leb a b = true) l ->
  Sorted (fun a b => String.leb a b = true) (insert_city c l).
Proof.
  induction 1 as [|x t Hs IH Hhd]; simpl.
  - repeat constructor.
  - destruct (String.leb c x) eqn:E.
    + repeat constructor; assumption.
    + constructor; [assumption|].
      apply leb_total in E.
      destruct Hhd as [|y t' Hxy]; simpl; [now constructor|].
      destruct (String.leb c y); now constructor.
Qed.

(** X16.  The sidebar list of line 38 shows the control cities in
    ascending order, each as often as it was drawn: the cities of a
    draw are distinct, so each control city appears exactly once. *)
Theorem sidebar_lists_control_cities_in_order (control_cities : list string) :
  Permutation (sorted control_cities) control_cities /\
  Sorted (fun a b => String.leb a b = true) (sorted control_cities) /\
  (NoDup control_cities -> NoDup (sorted control_cities)).
Proof.
  assert (Hp : Permutation (sorted control_cities) control_cities).
  { unfold sorted. induction control_cities as [|c t IH]; simpl; [reflexivity|].
    rewrite insert_city_perm. now constructor. }
  split; [exact Hp|]. split.
  - clear Hp. unfold sorted.
    induction control_cities as [|c t IH]; simpl; [constructor|].
    apply insert_city_sorted, IH.
  - intros Hnd. eapply Permutation_NoDup; [symmetry; exact Hp|exact Hnd].
Qed.

(** ** The power calculator on a zero deviation *)

(** C2, as the script has it.  When the standard deviation of the window
    is zero the effect size is an infinity or NaN, and nothing in the
    script checks it: no error is reported and the value goes to the
    solver as it is.  What follows is decided by the solver's answer:
    when it answers NaN or an infinity, the conversion of line 52 raises
    ([ValueError] for NaN) and the run ends on that exception, with the
    control cities in the sidebar and nothing else on the page. *)
Theorem zero_std_dev_is_not_validated {L : Library}
        (cfg : config) (revenue_df : list revenue_row) (a : assignment) (w : world) :
  fst (group_assignor revenue_df (holdout_pct cfg) w) = inr a ->
  Py.is_zero (std_dev_of (window_filter (test_weeks cfg) (a_revenue_df a))) = true ->
  Py.is_finite (effect_size_of (budget_increase_pct cfg)
                  (window_filter (test_weeks cfg) (a_revenue_df a))) = false /\
  power_calculator cfg (window_filter (test_weeks cfg) (a_revenue_df a))
  = match solve_power (effect_size_of (budget_increase_pct cfg)
                         (window_filter (test_weeks cfg) (a_revenue_df a)))
                      (alpha cfg) (power cfg) with
    | inl e => inl e
    | inr v =>
        match Py.int_of_ceil v with
        | inl e => inl e
        | inr n =>
            inr {| baseline := baseline_of (window_filter (test_weeks cfg) (a_revenue_df a));
                   std_dev := std_dev_of (window_filter (test_weeks cfg) (a_revenue_df a));
                   lift_amt := lift_amt_of (budget_increase_pct cfg)
                                 (window_filter (test_weeks cfg) (a_revenue_df a));
                   effect_size := effect_size_of (budget_increase_pct cfg)
                                    (window_filter (test_weeks cfg) (a_revenue_df a));
                   sample_needed := n |}
        end
    end /\
  (forall v,
      solve_power (effect_size_of (budget_increase_pct cfg)
                     (window_filter (test_weeks cfg) (a_revenue_df a)))
                  (alpha cfg) (power cfg) = inr v ->
      Py.is_finite v = false ->
      exists e,
        Py.int_of_ceil v = inl e /\
        (Prim2SF v = S754_nan -> e = Py.ValueError) /\
        outcome (analysis cfg revenue_df w)
        = (inl e, screen w ++ [SidebarWrite (sorted (a_control_cities a))])).
Proof.
  intros Ha Hz. split; [|split].
  - unfold effect_size_of. now apply div_by_zero_not_finite.
  - unfold power_calculator, Py.bind, Py.ret. reflexivity.
  - intros v Hv Hfin.
    assert (He : exists e, Py.int_of_ceil v = inl e
                           /\ (Prim2SF v = S754_nan -> e = Py.ValueError)).
    { unfold Py.is_finite in Hfin. unfold Py.int_of_ceil, Py.raise.
      destruct (Prim2SF v); try discriminate.
      - exists Py.OverflowError. split; [reflexivity|discriminate].
      - exists Py.ValueError. split; reflexivity. }
    destruct He as [e [He Hnan]]. exists e.
    split; [exact He|]. split; [exact Hnan|].
    rewrite analysis_page, Ha. cbv zeta.
    unfold power_calculator, Py.bind. now rewrite Hv, He.
Qed.

Lemma zero_std_dev_is_not_validated_witness :
  Py.is_finite (@effect_size_of ref7 (budget_increase_pct default_config)
                  (window_filter (test_weeks default_config)
                                 (a_revenue_df flat_assignment))) = false /\
  @power_calculator ref7 default_config
     (window_filter (test_weeks default_config) (a_revenue_df flat_assignment))
  = match @solve_power ref7
            (@effect_size_of ref7 (budget_increase_pct default_config)
               (window_filter (test_weeks default_config)
                              (a_revenue_df flat_assignment)))
            (alpha default_config) (power default_config) with
    | inl e => inl e
    | inr v =>
        match Py.int_of_ceil v with
        | inl e => inl e
        | inr n =>
            inr {| baseline :=
                     @baseline_of ref7
                       (window_filter (test_weeks default_config)
                                      (a_revenue_df flat_assignment));
                   std_dev :=
                     @std_dev_of ref7
                       (window_filter (test_weeks default_config)
                                      (a_revenue_df flat_assignment));
                   lift_amt :=
                     @lift_amt_of ref7 (budget_increase_pct default_config)
                       (window_filter (test_weeks default_config)
                                      (a_revenue_df flat_assignment));
                   effect_size :=
                     @effect_size_of ref7 (budget_increase_pct default_config)
                       (window_filter (test_weeks default_config)
                                      (a_revenue_df flat_assignment));
                   sample_needed := n |}
        end
    end /\
  (forall v,
      @solve_power ref7
         (@effect_size_of ref7 (budget_increase_pct default_config)
            (window_filter (test_weeks default_config)
                           (a_revenue_df flat_assignment)))
         (alpha default_config) (power default_config) = inr v ->
      Py.is_finite v = false ->
      exists e,
        Py.int_of_ceil v = inl e /\
        (Prim2SF v = S754_nan -> e = Py.ValueError) /\
        outcome (@analysis ref7 default_config flat_revenue (fresh 0))
        = (inl e, screen (fresh 0)
                  ++ [SidebarWrite (sorted (a_control_cities flat_assignment))])).
Proof.
  apply (@zero_std_dev_is_not_validated ref7 default_config flat_revenue
           flat_assignment (fresh 0)).
  - vm_compute. reflexivity.
  - vm_compute. reflexivity.
Defined.

(** C2, as the specification words it, fails.  On the flat table the
    deviation is zero and the effect size is infinite; the script reports
    no error of its own and hands the infinite value to the solver, whose
    answer is NaN; the run then ends at line 52 on the [ValueError] of
    converting NaN to an integer, with only the sidebar rendered. *)
Lemma zero_std_dev_reaches_the_solver :
  fst (@group_assignor ref7 flat_revenue 20 (fresh 0)) = inr flat_assignment /\
  window_filter 4 (a_revenue_df flat_assignment) = flat_window /\
  Py.is_zero (@std_dev_of ref7 flat_window) = true /\
  @effect_size_of ref7 20 flat_window = infinity /\
  @solve_power ref7 (@effect_size_of ref7 20 flat_window)
               (alpha default_config) (power default_config) = inr nan /\
  @power_calculator ref7 default_config flat_window = inl Py.ValueError /\
  @run ref7 default_config (Some (Csv flat_revenue)) (Some (Csv [])) 0
  = (inl Py.ValueError, [SidebarWrite ["C"%string]]).
Proof. repeat split; vm_compute; reflexivity. Qed.

(** ** The holdout count and the draw *)



